(** * Registrar lookup tool: query construction and result presentation

    A shallow embedding of [reg_db.py] (class [RegDB]) and of the driver
    [reg.py].

    - A Python string is a [string]; its characters are the Unicode code
      points 0 to 255 (the ASCII range and the Latin-1 supplement), one
      [ascii] per character, so that lengths, indices and comparisons
      count characters as Python does.  Lower case, digits, whitespace
      and the character classes of regular expressions are those that
      Python has on these code points.  Text with other characters is
      outside the model.
    - A cell of a result row is a [value] ([None], an integer or a
      string) and a row is a list of cells, so that indexing, unpacking
      and formatting can fail as they do in Python.
    - The methods run in a state and exception monad over what has been
      written to standard output and to the error stream and which
      statements have reached the cursor; a call returns, leaves the
      program through [sys.exit], or raises.
    - The data store is a function from a statement and its parameters to
      rows or an error.  [textwrap.fill] and the LIKE operator, which the
      program takes from the Python library and from SQLite, are modelled
      next to the code that uses them. *)

From Stdlib Require Import ZArith List Bool Ascii String Lia.
From Stdlib Require Import Numbers.DecimalString.
From Stdlib Require Import Sorting.Permutation Sorting.Sorted.
Import ListNotations.

Open Scope string_scope.

(** * Python built-ins used by the program *)

Module Py.

(** Cells of a result row as the sqlite3 module hands them over: [None] for
    a NULL, an [int] for an INTEGER column, a [str] for a TEXT column. *)
Inductive value : Type :=
  | VNone
  | VInt (z : Z)
  | VStr (s : string).

(** Exceptions the modelled code can meet.  [DbError] carries the message
    of an error raised by the sqlite3 module. *)
Inductive exn : Type :=
  | DbError (msg : string)
  | TypeError
  | IndexError
  | ValueError.

(** [str(error)] *)
Definition exn_str (e : exn) : string :=
  match e with
  | DbError msg => msg
  | TypeError => "TypeError"
  | IndexError => "IndexError"
  | ValueError => "ValueError"
  end.

(** [str(z)] for an integer. *)
Definition str_of_Z (z : Z) : string := NilZero.string_of_int (Z.to_int z).

(** [str(v)], which is also what [f"{v}"] inserts. *)
Definition str (v : value) : string :=
  match v with
  | VNone => "None"
  | VInt z => str_of_Z z
  | VStr s => s
  end.

(** Truth value of an optional string: [None] and the empty string are
    false. *)
Definition truthy (v : option string) : bool :=
  match v with
  | None => false
  | Some "" => false
  | Some (String _ _) => true
  end.

(** [" " * n] *)
Fixpoint spaces (n : nat) : string :=
  match n with
  | O => ""
  | S k => String " " (spaces k)
  end.

(** [s.rjust(w)], the effect of the format specification [>w] on text. *)
Definition rjust (w : nat) (s : string) : string :=
  spaces (w - String.length s) ++ s.

(** [old in s] for strings: [old] occurs in [s] as a substring. *)
Fixpoint contains (old s : string) : bool :=
  prefix old s ||
  match s with
  | "" => false
  | String _ s' => contains old s'
  end.

(** [s.replace(old, new)] for a non-empty [old]: occurrences are replaced
    from left to right and do not overlap; [skip] counts the characters of
    an occurrence that has just been replaced and are still to be passed. *)
Fixpoint replace_from (old new : string) (skip : nat) (s : string) : string :=
  match s with
  | "" => ""
  | String c s' =>
      match skip with
      | S k => replace_from old new k s'
      | O =>
          if prefix old s
          then new ++ replace_from old new (String.length old - 1) s'
          else String c (replace_from old new 0 s')
      end
  end.

Definition replace (old new s : string) : string := replace_from old new 0 s.

(** The characters that [str.lower] changes: the capital letters A to Z
    and those of the Latin-1 supplement (192 to 222 without the
    multiplication sign 215).  Each is 32 code points before its small
    letter. *)
Definition is_upper (c : ascii) : bool :=
  let k := nat_of_ascii c in
  ((65 <=? k)%nat && (k <=? 90)%nat)
  || ((192 <=? k)%nat && (k <=? 214)%nat)
  || ((216 <=? k)%nat && (k <=? 222)%nat).

Definition lower_char (c : ascii) : ascii :=
  if is_upper c then ascii_of_nat (nat_of_ascii c + 32) else c.

(** [s.lower()] *)
Fixpoint lower (s : string) : string :=
  match s with
  | "" => ""
  | String c s' => String (lower_char c) (lower s')
  end.

(** [c.isdigit()]: the digits 0 to 9 and the superscripts two, three
    (178, 179) and one (185). *)
Definition is_digit (c : ascii) : bool :=
  let k := nat_of_ascii c in
  ((48 <=? k)%nat && (k <=? 57)%nat)
  || ((178 <=? k)%nat && (k <=? 179)%nat)
  || (k =? 185)%nat.

Fixpoint all_chars (p : ascii -> bool) (s : string) : bool :=
  match s with
  | "" => true
  | String c s' => p c && all_chars p s'
  end.

(** [s.isdigit()]: every character is a digit and there is at least one. *)
Definition isdigit (s : string) : bool :=
  match s with
  | "" => false
  | _ => all_chars is_digit s
  end.

(** [s[:-n]]: [s] without its last [n] characters. *)
Definition drop_last (n : nat) (s : string) : string :=
  substring 0 (String.length s - n) s.

End Py.

Import Py.

(** * The query builder *)

(** The parsed command line of [reg.py]: the four optional filters. *)
Record Namespace : Type := mkNamespace {
  d : option string;
  n : option string;
  a : option string;
  t : option string
}.

Definition nl : string := String (ascii_of_nat 10) "".

(** [RegDB.replace_wildcards] *)
Definition replace_wildcards (string : String.string) : String.string :=
  let string := replace "%" "@%" string in
  let string := replace "_" "@_" string in
  string.

(** The body of the loop of [RegDB.format_args] for one attribute. *)
Definition format_value (value : option string) : option string :=
  if truthy value then
    match value with
    | Some value =>
        let value := replace_wildcards value in
        let value := lower value in
        let value := replace nl "" value in
        let value := "%" ++ value ++ "%" in
        Some value
    | None => value
    end
  else value.

(** [RegDB.format_args]: the loop over [vars(args).items()] visits the four
    attributes of the namespace and overwrites those it formats. *)
Definition format_args (args : Namespace) : Namespace :=
  {| d := format_value (d args);
     n := format_value (n args);
     a := format_value (a args);
     t := format_value (t args) |}.

Definition search_select : string := "
        SELECT classid, dept, coursenum, area, title
        FROM classes
        INNER JOIN courses ON classes.courseid = courses.courseid
        INNER JOIN crosslistings ON classes.courseid = crosslistings.courseid
        ".

(** [RegDB.get_search_query] *)
Definition get_search_query (args : Namespace) : string :=
  let dept := d args in
  let num := n args in
  let area := a args in
  let title := t args in
  let query := search_select in
  let where_ := "WHERE " in
  let where_ := if truthy dept then where_ ++ "dept LIKE ? escape '@' AND " else where_ in
  let where_ := if truthy num then where_ ++ "coursenum LIKE ? escape '@' AND " else where_ in
  let where_ := if truthy area then where_ ++ "area LIKE ? escape '@' AND " else where_ in
  let where_ := if truthy title then where_ ++ "title LIKE ? escape '@' AND " else where_ in
  let where_ := if negb (where_ =? "WHERE ") then drop_last 5 where_ else "" in
  let query := query ++ where_ in
  let query := query ++ " ORDER BY dept, coursenum, classid" in
  query.

(** [if v: parameters.append(v)] *)
Definition append_if_given (v : option string) (parameters : list string)
  : list string :=
  if truthy v then
    match v with
    | Some s => (parameters ++ [s])%list
    | None => parameters
    end
  else parameters.

(** The parameter list that [RegDB.search] binds to the statement. *)
Definition search_parameters (args : Namespace) : list string :=
  let parameters := [] in
  let parameters := append_if_given (d args) parameters in
  let parameters := append_if_given (n args) parameters in
  let parameters := append_if_given (a args) parameters in
  let parameters := append_if_given (t args) parameters in
  parameters.

(** * The part of Python's [textwrap] that the presenter calls

    [textwrap.fill(text, width, subsequent_indent=..., break_long_words=...)]
    with every other option at its default: tabs are expanded, whitespace
    characters become spaces, the text is split into chunks (runs of
    whitespace, words, the parts of a hyphenated compound, dashes), and the
    chunks are laid out greedily. *)

Module textwrap.

Definition code (c : ascii) : nat := nat_of_ascii c.

(** The characters of [textwrap._whitespace]. *)
Definition is_whitespace (c : ascii) : bool :=
  ((9 <=? code c)%nat && (code c <=? 13)%nat) || (code c =? 32)%nat.

(** [c.isspace()]: the characters above, the separators 28 to 31, the
    next-line character 133 and the no-break space 160. *)
Definition is_space (c : ascii) : bool :=
  is_whitespace c
  || ((28 <=? code c)%nat && (code c <=? 31)%nat)
  || (code c =? 133)%nat || (code c =? 160)%nat.

Definition in_range (lo hi : nat) (c : ascii) : bool :=
  (lo <=? code c)%nat && (code c <=? hi)%nat.

(** The class [\d]: the decimal digits. *)
Definition is_decimal (c : ascii) : bool := in_range 48 57 c.

(** The class [\w]: the underscore and the alphanumeric characters,
    which are the letters and digits of the ASCII range, the ordinal
    indicators 170 and 186, the micro sign 181, the superscript digits
    178, 179 and 185, the fractions 188 to 190 and the letters 192 to
    255 without the multiplication sign 215 and the division sign
    247. *)
Definition is_word (c : ascii) : bool :=
  existsb (fun r => in_range (fst r) (snd r) c)
    [(48, 57); (65, 90); (95, 95); (97, 122); (170, 170); (178, 179);
     (181, 181); (185, 186); (188, 190); (192, 214); (216, 246);
     (248, 255)]%nat.

(** The class [[^\d\W]]: the word characters that are no decimal
    digits. *)
Definition is_letter (c : ascii) : bool :=
  is_word c && negb (is_decimal c).

(** The class of word characters and the punctuation marks
    exclamation mark, double quote, apostrophe, ampersand, full stop,
    comma and question mark. *)
Definition is_word_punct (c : ascii) : bool :=
  is_word c
  || existsb (Nat.eqb (code c)) [33; 34; 39; 38; 46; 44; 63]%nat.

Definition is_hyphen (c : ascii) : bool := (code c =? 45)%nat.

(** [chunk.strip()] is empty. *)
Definition blank (chunk : string) : bool := all_chars is_space chunk.

Fixpoint take (k : nat) (s : string) : string :=
  match k, s with
  | S k', String c s' => String c (take k' s')
  | _, _ => ""
  end.

Fixpoint drop (k : nat) (s : string) : string :=
  match k, s with
  | S k', String _ s' => drop k' s'
  | _, _ => s
  end.

(** [text.expandtabs(tabsize)], [col] being the column reached. *)
Fixpoint expandtabs_from (tabsize col : nat) (text : string) : string :=
  match text with
  | "" => ""
  | String c text' =>
      if (code c =? 9)%nat then
        let incr := tabsize - col mod tabsize in
        spaces incr ++ expandtabs_from tabsize (col + incr) text'
      else if (code c =? 10)%nat || (code c =? 13)%nat then
        String c (expandtabs_from tabsize 0 text')
      else String c (expandtabs_from tabsize (S col) text')
  end.

(** [text.translate(unicode_whitespace_trans)] *)
Fixpoint translate_whitespace (text : string) : string :=
  match text with
  | "" => ""
  | String c text' =>
      String (if is_whitespace c then " "%char else c)
             (translate_whitespace text')
  end.

(** [TextWrapper._munge_whitespace] *)
Definition _munge_whitespace (text : string) : string :=
  translate_whitespace (expandtabs_from 8 0 text).

(** ** [wordsep_re]

    A match of the splitting expression starts where the previous one
    ended.  [back] lists the characters before the current position, the
    nearest first; the string argument is the text from that position. *)

Fixpoint whitespace_run (s : string) : nat :=
  match s with
  | String c s' => if is_whitespace c then S (whitespace_run s') else 0
  | "" => 0
  end.

Fixpoint hyphen_run (s : string) : nat :=
  match s with
  | String c s' => if is_hyphen c then S (hyphen_run s') else 0
  | "" => 0
  end.

Definition starts_with (p : ascii -> bool) (s : string) : bool :=
  match s with
  | String c _ => p c
  | "" => false
  end.

Definition preceded_by (p : ascii -> bool) (back : list ascii) : bool :=
  match back with
  | c :: _ => p c
  | [] => false
  end.

(** Two or more hyphens after a word character or punctuation mark and
    before a word character: [(?<=wp) -{2,} (?=\w)]. *)
Definition em_dash_at (back : list ascii) (s : string) : bool :=
  preceded_by is_word_punct back
  && (2 <=? hyphen_run s)%nat
  && starts_with is_word (drop (hyphen_run s) s).

(** The hyphen of a compound word: [-] after two letters, or after
    letter, hyphen, letter, and before [letter -? letter]. *)
Definition hyphen_break_at (back : list ascii) (s : string) : bool :=
  match s with
  | String c r =>
      is_hyphen c
      && match back with
         | b1 :: b2 :: back' =>
             is_letter b1
             && (is_letter b2 || (is_hyphen b2 && preceded_by is_letter back'))
         | _ => false
         end
      && match r with
         | String l1 r' =>
             is_letter l1
             && (starts_with is_letter r'
                 || (starts_with is_hyphen r' && starts_with is_letter (drop 1 r')))
         | "" => false
         end
  | "" => false
  end.

(** [(?=ws|\Z)] *)
Definition end_of_word (s : string) : bool :=
  match s with
  | "" => true
  | String c _ => is_whitespace c
  end.

(** The lazy [nws+?] of the word alternative, after at least one
    character: the number of characters the match still takes. *)
Fixpoint word_rest (back : list ascii) (s : string) : nat :=
  if hyphen_break_at back s then 1
  else if end_of_word s then 0
  else if em_dash_at back s then 0
  else
    match s with
    | String c s' => S (word_rest (c :: back) s')
    | "" => 0
    end.

(** Length of the match of [wordsep_re] at the start of [s]. *)
Definition chunk_length (back : list ascii) (s : string) : nat :=
  match s with
  | "" => 0
  | String c s' =>
      if is_whitespace c then whitespace_run s
      else if em_dash_at back s then hyphen_run s
      else S (word_rest (c :: back) s')
  end.

Fixpoint split_from (fuel : nat) (back : list ascii) (s : string)
  : list string :=
  match fuel with
  | O => []
  | S fuel' =>
      match s with
      | "" => []
      | _ =>
          let k := chunk_length back s in
          take k s
          :: split_from fuel'
               (rev (list_ascii_of_string (take k s)) ++ back)%list
               (drop k s)
      end
  end.

Definition nonempty (s : string) : bool :=
  match s with
  | "" => false
  | _ => true
  end.

(** [TextWrapper._split] with [break_on_hyphens] set. *)
Definition _split (text : string) : list string :=
  let chunks := split_from (String.length text) [] text in
  filter nonempty chunks.

(** ** Laying the chunks out

    The source keeps the chunks on a reversed list used as a stack; here
    the list is in text order and its head is the next chunk. *)

Record TextWrapper : Type := mkTextWrapper {
  width : nat;
  initial_indent : string;
  subsequent_indent : string;
  break_long_words : bool
}.

Definition join (chunks : list string) : string := String.concat "" chunks.

(** [sum(map(len, cur_line))] *)
Definition total_length (chunks : list string) : nat :=
  fold_right (fun c acc => String.length c + acc) 0 chunks.

(** The inner loop: chunks are moved to the current line while they fit. *)
Fixpoint fit (width cur_len : nat) (chunks : list string)
  : list string * list string :=
  match chunks with
  | [] => ([], [])
  | c :: rest =>
      let l := String.length c in
      if (cur_len + l <=? width)%nat then
        let (cur_line, chunks') := fit width (cur_len + l) rest in
        (c :: cur_line, chunks')
      else ([], chunks)
  end.

(** [chunk.rfind('-', 0, stop)]: the last index below [stop] that holds a
    hyphen; [i] is the index of the head of [chunk]. *)
Fixpoint rfind_hyphen (chunk : string) (i stop : nat) : option nat :=
  match chunk with
  | "" => None
  | String c chunk' =>
      if (i <? stop)%nat then
        match rfind_hyphen chunk' (S i) stop with
        | Some j => Some j
        | None => if is_hyphen c then Some i else None
        end
      else None
  end.

(** [TextWrapper._handle_long_word]; the width is kept in [nat], which
    agrees with the source because no chunk is empty. *)
Definition _handle_long_word (self : TextWrapper)
  (chunks cur_line : list string) (cur_len width : nat)
  : list string * list string :=
  let space_left := if (width <? 1)%nat then 1 else width - cur_len in
  match chunks with
  | [] => (chunks, cur_line)
  | chunk :: rest =>
      if break_long_words self then
        let stop :=
          if (space_left <? String.length chunk)%nat then
            match rfind_hyphen chunk 0 space_left with
            | Some hyphen =>
                if (0 <? hyphen)%nat
                   && negb (all_chars is_hyphen (take hyphen chunk))
                then hyphen + 1
                else space_left
            | None => space_left
            end
          else space_left in
        (drop stop chunk :: rest, (cur_line ++ [take stop chunk])%list)
      else
        match cur_line with
        | [] => (rest, [chunk])
        | _ => (chunks, cur_line)
        end
  end.

(** One pass of the outer loop of [_wrap_chunks]: the chunks left and the
    chunks of the line built. [started] tells whether a line was emitted
    before. *)
Definition next_line (self : TextWrapper) (started : bool)
  (chunks : list string) : list string * list string :=
  let indent :=
    if started then subsequent_indent self else initial_indent self in
  let width := width self - String.length indent in
  let chunks :=
    match chunks with
    | c :: rest => if blank c && started then rest else chunks
    | [] => chunks
    end in
  let (cur_line, chunks) := fit width 0 chunks in
  let cur_len := total_length cur_line in
  let (chunks, cur_line) :=
    match chunks with
    | c :: _ =>
        if (width <? String.length c)%nat
        then _handle_long_word self chunks cur_line cur_len width
        else (chunks, cur_line)
    | [] => (chunks, cur_line)
    end in
  let cur_line :=
    match rev cur_line with
    | c :: before => if blank c then rev before else cur_line
    | [] => cur_line
    end in
  (chunks, cur_line).

Fixpoint wrap_loop (self : TextWrapper) (fuel : nat)
  (lines chunks : list string) : list string :=
  match fuel with
  | O => lines
  | S fuel' =>
      match chunks with
      | [] => lines
      | _ =>
          let started := match lines with [] => false | _ => true end in
          let indent :=
            if started then subsequent_indent self else initial_indent self in
          let (chunks, cur_line) := next_line self started chunks in
          let lines :=
            match cur_line with
            | [] => lines
            | _ => (lines ++ [(indent ++ join cur_line)%string])%list
            end in
          wrap_loop self fuel' lines chunks
      end
  end.

(** Every pass removes a chunk or shortens the first one. *)
Definition wrap_fuel (chunks : list string) : nat :=
  S (total_length chunks + List.length chunks).

(** [TextWrapper._wrap_chunks] *)
Definition _wrap_chunks (self : TextWrapper) (chunks : list string)
  : list string :=
  wrap_loop self (wrap_fuel chunks) [] chunks.

(** [TextWrapper.wrap] *)
Definition wrap (self : TextWrapper) (text : string) : list string :=
  let chunks := _split (_munge_whitespace text) in
  _wrap_chunks self chunks.

(** [textwrap.fill(text, width, subsequent_indent=..., break_long_words=...)] *)
Definition fill (text : string) (width : nat) (subsequent_indent : string)
  (break_long_words : bool) : string :=
  let w := mkTextWrapper width "" subsequent_indent break_long_words in
  String.concat nl (wrap w text).

End textwrap.

(** * Effects of the methods *)

(** What a run has written and sent to the cursor so far. *)
Record process : Type := mkProcess {
  stdout : string;
  stderr : string;
  executed : list (string * list value)
}.

Definition start : process :=
  {| stdout := ""; stderr := ""; executed := [] |}.

(** How a call ends: it returns, [sys.exit(status)] unwinds the program,
    or an exception is on its way to the caller. *)
Inductive outcome (A : Type) : Type :=
  | Returned (x : A)
  | Exited (status : Z)
  | Raised (e : exn).

Arguments Returned {A} x.
Arguments Exited {A} status.
Arguments Raised {A} e.

Definition M (A : Type) : Type := process -> outcome A * process.

Definition ret {A : Type} (x : A) : M A := fun p => (Returned x, p).

Definition bind {A B : Type} (m : M A) (k : A -> M B) : M B :=
  fun p =>
    match m p with
    | (Returned x, p') => k x p'
    | (Exited status, p') => (Exited status, p')
    | (Raised e, p') => (Raised e, p')
    end.

Notation "x <- m ;; k" := (bind m (fun x => k))
  (at level 61, m at next level, right associativity).
Notation "m ;;; k" := (bind m (fun _ => k))
  (at level 61, right associativity).

Definition raise {A : Type} (e : exn) : M A := fun p => (Raised e, p).

(** [sys.exit(status)] *)
Definition sys_exit {A : Type} (status : Z) : M A :=
  fun p => (Exited status, p).

(** [try: m except Exception as error: handler(error)]; [SystemExit] is
    not an [Exception] and passes through. *)
Definition try_except {A : Type} (m : M A) (handler : exn -> M A) : M A :=
  fun p =>
    match m p with
    | (Raised e, p') => handler e p'
    | r => r
    end.

(** [print(s)] *)
Definition print (s : string) : M unit :=
  fun p =>
    (Returned tt,
     {| stdout := stdout p ++ s ++ nl;
        stderr := stderr p;
        executed := executed p |}).

(** [sys.stdout.write(s)] *)
Definition stdout_write (s : string) : M unit :=
  fun p =>
    (Returned tt,
     {| stdout := stdout p ++ s;
        stderr := stderr p;
        executed := executed p |}).

(** [sys.stderr.write(s)] *)
Definition stderr_write (s : string) : M unit :=
  fun p =>
    (Returned tt,
     {| stdout := stdout p;
        stderr := stderr p ++ s;
        executed := executed p |}).

(** Lifting of a computation that only returns or raises. *)
Definition lift {A : Type} (r : exn + A) : M A :=
  match r with
  | inl e => raise e
  | inr x => ret x
  end.

(** A result row and the data store behind the cursor: a statement and its
    parameters either fail or yield the rows of [fetchall()]. *)
Definition row : Type := list value.
Definition cursor : Type := string -> list value -> exn + list row.

(** [cur.execute(query, parameters).fetchall()] *)
Definition execute_fetchall (cur : cursor) (query : string)
  (parameters : list value) : M (list row) :=
  fun p =>
    let p' := {| stdout := stdout p;
                 stderr := stderr p;
                 executed := (executed p ++ [(query, parameters)])%list |} in
    match cur query parameters with
    | inl e => (Raised e, p')
    | inr rows => (Returned rows, p')
    end.

(** [seq[i]] *)
Definition item {A : Type} (l : list A) (i : nat) : exn + A :=
  match nth_error l i with
  | Some x => inr x
  | None => inl IndexError
  end.

(** [len(v)] for a cell. *)
Definition len (v : value) : exn + nat :=
  match v with
  | VStr s => inr (String.length s)
  | _ => inl TypeError
  end.

(** [f"{v:>w}"] *)
Definition format_right (w : nat) (v : value) : exn + string :=
  match v with
  | VNone => inl TypeError
  | VInt z => inr (rjust w (str_of_Z z))
  | VStr s => inr (rjust w s)
  end.

(** ** Sets and sorting of cells *)

Definition value_eq_dec (x y : value) : {x = y} + {x <> y}.
Proof. decide equality; [apply Z.eq_dec | apply string_dec]. Defined.

(** [list(set(l))]: the distinct cells of [l] (in some order; the program
    sorts the list at once). *)
Definition list_set (l : list value) : list value := nodup value_eq_dec l.

(** [x < y] on cells: defined between two strings and between two
    integers, a [TypeError] otherwise. *)
Definition value_lt (x y : value) : exn + bool :=
  match x, y with
  | VStr s1, VStr s2 => inr (String.ltb s1 s2)
  | VInt z1, VInt z2 => inr (z1 <? z2)%Z
  | _, _ => inl TypeError
  end.

Fixpoint insert_sorted (x : value) (l : list value) : exn + list value :=
  match l with
  | [] => inr [x]
  | y :: l' =>
      match value_lt x y with
      | inl e => inl e
      | inr true => inr (x :: l)
      | inr false =>
          match insert_sorted x l' with
          | inl e => inl e
          | inr r => inr (y :: r)
          end
      end
  end.

(** [l.sort()]: a comparison sort by [<]; it fails as soon as a
    comparison does. *)
Fixpoint sort (l : list value) : exn + list value :=
  match l with
  | [] => inr []
  | x :: l' =>
      match sort l' with
      | inl e => inl e
      | inr s => insert_sorted x s
      end
  end.

(** * The class [RegDB] *)

Record environment : Type := mkEnvironment {
  argv0 : string;
  sqlite3_connect : string -> exn + cursor
}.

Record RegDB : Type := mkRegDB {
  cur : cursor
}.

Definition DB_URL : string := "file:reg.sqlite?mode=ro".

(** [RegDB.__init__] *)
Definition RegDB_init (env : environment) : M RegDB :=
  try_except
    (cur <- lift (sqlite3_connect env DB_URL) ;;
     ret {| cur := cur |})
    (fun error =>
       stderr_write (argv0 env ++ ": " ++ exn_str error) ;;;
       sys_exit 1).

(** [RegDB.close] *)
Definition close (self : RegDB) : M unit := ret tt.

Definition get_details_select : string := "
        SELECT classes.courseid, days, starttime, endtime, bldg, roomnum, dept, coursenum, area, title, descrip, prereqs, profname
        FROM classes
        INNER JOIN courses ON classes.courseid = courses.courseid
        INNER JOIN crosslistings ON classes.courseid = crosslistings.courseid
        LEFT JOIN coursesprofs ON classes.courseid = coursesprofs.courseid
        LEFT JOIN profs ON coursesprofs.profid = profs.profid
        ".

(** [RegDB.get_details_query] *)
Definition get_details_query : string :=
  let query := get_details_select in
  let where_ := "WHERE classid = ?" in
  let query := query ++ where_ in
  let query := query ++ " ORDER BY dept, coursenum" in
  query.

(** The first loop of [RegDB.display_details]: the lines of the
    cross-listings and the professor cells of all rows. *)
Fixpoint dept_prof_loop (results : list row) (dept_num : string)
  (profs : list value) : exn + (string * list value) :=
  match results with
  | [] => inr (dept_num, profs)
  | curr :: results' =>
      match item curr 6, item curr 7 with
      | inr c6, inr c7 =>
          let new_dept_num := str c6 ++ " " ++ str c7 in
          let dept_num :=
            if negb (contains new_dept_num dept_num)
            then dept_num ++ "Dept and Number: " ++ new_dept_num ++ nl
            else dept_num in
          match item curr 12 with
          | inr c12 => dept_prof_loop results' dept_num (profs ++ [c12])%list
          | inl e => inl e
          end
      | inl e, _ => inl e
      | _, inl e => inl e
      end
  end.

(** The second loop of [RegDB.display_details]. *)
Fixpoint prof_loop (profs : list value) (prof_str : string) : string :=
  match profs with
  | [] => prof_str
  | curr_prof :: profs' =>
      prof_loop profs' (prof_str ++ "Professor: " ++ str curr_prof ++ nl)
  end.

Definition is_not_None (v : value) : bool :=
  match v with
  | VNone => false
  | _ => true
  end.

(** [RegDB.display_details] *)
Definition display_details (results : list row) : M unit :=
  let num_columns := 13 in
  res <- lift (item results 0) ;;
  (if negb (List.length res =? num_columns)%nat then
     stderr_write "Error: Invalid number items in details display" ;;;
     sys_exit 1
   else ret tt) ;;;
  loop <- lift (dept_prof_loop results "" []) ;;
  let dept_num := fst loop in
  let profs := snd loop in
  let profs := list_set profs in
  profs <- lift (sort profs) ;;
  let prof_str := prof_loop profs "" in
  let prof_str := drop_last 1 prof_str in
  res10 <- lift (item res 10) ;;
  let wrapped_descrip :=
    textwrap.fill ("Description: " ++ str res10) 72 "" false in
  res9 <- lift (item res 9) ;;
  let wrapped_title :=
    textwrap.fill ("Title: " ++ str res9) 72 "" false in
  res11 <- lift (item res 11) ;;
  let wrapped_prereqs :=
    textwrap.fill ("Prerequisites: " ++ str res11) 72 "" true in
  res0 <- lift (item res 0) ;;
  print ("Course Id: " ++ str res0 ++ nl) ;;;
  res1 <- lift (item res 1) ;;
  print ("Days: " ++ str res1) ;;;
  res2 <- lift (item res 2) ;;
  print ("Start time: " ++ str res2) ;;;
  res3 <- lift (item res 3) ;;
  print ("End time: " ++ str res3) ;;;
  res4 <- lift (item res 4) ;;
  print ("Building: " ++ str res4) ;;;
  res5 <- lift (item res 5) ;;
  print ("Room: " ++ str res5 ++ nl) ;;;
  print dept_num ;;;
  res8 <- lift (item res 8) ;;
  print ("Area: " ++ str res8 ++ nl) ;;;
  print (wrapped_title ++ nl) ;;;
  print (wrapped_descrip ++ nl) ;;;
  res11 <- lift (item res 11) ;;
  len11 <- lift (len res11) ;;
  (if (0 <? len11)%nat then print (wrapped_prereqs ++ nl)
   else print ("Prerequisites:" ++ nl)) ;;;
  profs0 <- lift (item profs 0) ;;
  if is_not_None profs0 then print prof_str else ret tt.

Definition header : string := "ClsId Dept CrsNum Area Title".
Definition underline : string := "----- ---- ------ ---- -----".

(** The body of the loop of [RegDB.display_table]. *)
Definition display_row (max_len : nat) (curr : row) : M unit :=
  match curr with
  | [classid; dept; coursenum; area; title] =>
      f_classid <- lift (format_right 5 classid) ;;
      f_dept <- lift (format_right 4 dept) ;;
      f_coursenum <- lift (format_right 6 coursenum) ;;
      f_area <- lift (format_right 4 area) ;;
      let line :=
        (f_classid ++ " " ++ f_dept ++ " " ++ f_coursenum ++ " ")
        ++ (f_area ++ " " ++ str title) in
      len_title <- lift (len title) ;;
      let len_without_title := String.length line - len_title in
      let line :=
        textwrap.fill line max_len (spaces len_without_title) false in
      print line
  | _ => raise ValueError
  end.

Fixpoint display_rows (max_len : nat) (results : list row) : M unit :=
  match results with
  | [] => ret tt
  | curr :: results' =>
      display_row max_len curr ;;; display_rows max_len results'
  end.

(** [RegDB.display_table] *)
Definition display_table (results : list row) (max_len : nat) : M unit :=
  print header ;;;
  print underline ;;;
  display_rows max_len results.

(** [RegDB.search] *)
Definition search (env : environment) (self : RegDB) (args : Namespace)
  : M unit :=
  let args := format_args args in
  let query := get_search_query args in
  let parameters := search_parameters args in
  results <-
    try_except
      (execute_fetchall (cur self) query (map VStr parameters))
      (fun error =>
         stderr_write (argv0 env ++ ": " ++ exn_str error) ;;;
         sys_exit 1) ;;
  display_table results 72.

(** [RegDB.get_details]; [class_id] is [args.classID]. *)
Definition get_details (self : RegDB) (class_id : value) : M unit :=
  (if negb (isdigit (str class_id)) then
     stderr_write "Error: Class ID must be a number" ;;;
     sys_exit 1
   else ret tt) ;;;
  let query := get_details_query in
  let parameters := [class_id] in
  results <- execute_fetchall (cur self) query parameters ;;
  (if (List.length results =? 0)%nat then
     stderr_write ("no class with classid " ++ str class_id ++ " exists") ;;;
     sys_exit 1
   else ret tt) ;;;
  display_details results.

(** * The driver [reg.py] *)

(** What [parser.parse_args()] makes of the command line: the namespace
    of the four optional filters; or, for [-h], the help text, which
    argparse prints to standard output before it exits with status 0; or,
    for arguments it does not accept, the usage message, which it writes
    to the error stream before it exits with status 2. *)
Inductive command_line : Type :=
  | Parsed (args : Namespace)
  | Help (text : string)
  | UsageError (text : string).

(** [parser.parse_args()] *)
Definition parse_args (command : command_line) : M Namespace :=
  match command with
  | Parsed args => ret args
  | Help text => stdout_write text ;;; sys_exit 0
  | UsageError text => stderr_write text ;;; sys_exit 2
  end.

(** [main] *)
Definition main (env : environment) (command : command_line) : M unit :=
  args <- parse_args command ;;
  registrar_db <- RegDB_init env ;;
  search env registrar_db args ;;;
  close registrar_db.

(** Exit status of the interpreter for a program that ends this way: 0
    after a normal return, the argument of [sys.exit], 1 after an uncaught
    exception. *)
Definition exit_status {A : Type} (o : outcome A) : Z :=
  match o with
  | Returned _ => 0
  | Exited status => status
  | Raised _ => 1
  end.

(** * The LIKE operator of the data store

    [like esc pattern s] is the value of [s LIKE pattern ESCAPE esc] in
    SQLite: [%] matches any run of characters, [_] any one character, the
    character after [esc] matches itself, and two characters are equal when
    they agree after the letters A to Z have been folded to lower case
    (SQLite folds no other letter, so a capital letter of the Latin-1
    supplement differs from its small letter).  Characters are code
    points, as in the strings of the program.  A pattern that ends in a
    lone escape character matches nothing.  The operator reads its two
    operands as C strings: each ends before its first null character. *)

Module sqlite.

(** [sqlite3Tolower]: only the letters A to Z have a lower case. *)
Definition tolower (c : ascii) : ascii :=
  if (65 <=? nat_of_ascii c)%nat && (nat_of_ascii c <=? 90)%nat
  then ascii_of_nat (nat_of_ascii c + 32)
  else c.

Definition same_char (c1 c2 : ascii) : bool :=
  Ascii.eqb (tolower c1) (tolower c2).

Fixpoint like (esc : ascii) (pattern s : string) : bool :=
  match pattern with
  | "" =>
      match s with
      | "" => true
      | _ => false
      end
  | String c pattern' =>
      if Ascii.eqb c "%" then
        (fix any (s : string) : bool :=
           like esc pattern' s
           || match s with
              | "" => false
              | String _ s' => any s'
              end) s
      else if Ascii.eqb c esc then
        match pattern', s with
        | String c' pattern'', String x s' =>
            same_char c' x && like esc pattern'' s'
        | _, _ => false
        end
      else if Ascii.eqb c "_" then
        match s with
        | String _ s' => like esc pattern' s'
        | "" => false
        end
      else
        match s with
        | String x s' => same_char c x && like esc pattern' s'
        | "" => false
        end
  end.

(** The text before the first null character. *)
Fixpoint c_string (s : string) : string :=
  match s with
  | "" => ""
  | String c s' => if Ascii.eqb c zero then "" else String c (c_string s')
  end.

(** The predicate [field LIKE ? escape '@'] of the list query. *)
Definition field_like (parameter field : string) : bool :=
  like "@" (c_string parameter) (c_string field).

End sqlite.

(** * The normalisation and the list query as the specification words them *)

Definition is_wildcard (c : ascii) : bool :=
  Ascii.eqb c "%" || Ascii.eqb c "_".

(** Step 1: every wildcard character is prefixed with the escape
    character. *)
Fixpoint escape_wildcards (s : string) : string :=
  match s with
  | "" => ""
  | String c s' =>
      if is_wildcard c
      then String "@" (String c (escape_wildcards s'))
      else String c (escape_wildcards s')
  end.

(** Step 3: the newline characters are removed. *)
Fixpoint strip_newlines (s : string) : string :=
  match s with
  | "" => ""
  | String c s' =>
      if Ascii.eqb c (ascii_of_nat 10)
      then strip_newlines s'
      else String c (strip_newlines s')
  end.

Definition string_of_codes (codes : list nat) : string :=
  string_of_list_ascii (map ascii_of_nat codes).

(** The capital letters and, in the same order, their small letters:
    those of the ASCII range, then those of the Latin-1 supplement
    (capital A with grave to capital O with diaeresis, capital O with
    stroke to capital thorn). *)
Definition capital_letters : string :=
  "ABCDEFGHIJKLMNOPQRSTUVWXYZ" ++ string_of_codes (seq 192 23 ++ seq 216 7).

Definition small_letters : string :=
  "abcdefghijklmnopqrstuvwxyz" ++ string_of_codes (seq 224 23 ++ seq 248 7).

Fixpoint small_of (capitals smalls : string) (c : ascii) : ascii :=
  match capitals, smalls with
  | String capital capitals', String small smalls' =>
      if Ascii.eqb c capital then small else small_of capitals' smalls' c
  | _, _ => c
  end.

(** Step 2: every capital letter is replaced by its small letter. *)
Fixpoint lowercase (s : string) : string :=
  match s with
  | "" => ""
  | String c s' =>
      String (small_of capital_letters small_letters c) (lowercase s')
  end.

(** Steps 1 to 4 in order. *)
Definition normalize (v : string) : string :=
  "%" ++ strip_newlines (lowercase (escape_wildcards v)) ++ "%".

(** A filter is provided when it is present and not empty. *)
Definition given (v : option string) : list string :=
  match v with
  | Some (String c s) => [String c s]
  | _ => []
  end.

Definition provided (args : Namespace) : list string :=
  (given (d args) ++ given (n args) ++ given (a args) ++ given (t args))%list.

(** The filters with their columns, in the order of the predicates. *)
Definition columns (args : Namespace) : list (string * option string) :=
  [("dept", d args); ("coursenum", n args); ("area", a args);
   ("title", t args)].

Definition present (args : Namespace) : list (string * option string) :=
  filter (fun cv => truthy (snd cv)) (columns args).

Definition predicate (cv : string * option string) : string :=
  fst cv ++ " LIKE ? escape '@'".

Definition where_clause (args : Namespace) : string :=
  match present args with
  | [] => ""
  | ps => "WHERE " ++ String.concat " AND " (map predicate ps)
  end.

Definition order_by : string := " ORDER BY dept, coursenum, classid".

(** An empty filter read as an absent one. *)
Definition omit_empty (v : option string) : option string :=
  match v with
  | Some "" => None
  | _ => v
  end.

Definition omit_empties (args : Namespace) : Namespace :=
  {| d := omit_empty (d args);
     n := omit_empty (n args);
     a := omit_empty (a args);
     t := omit_empty (t args) |}.

(** Two characters are the same letter when they are equal once the
    capital letters A to Z have been replaced by their small letters. *)
Definition same_letter (c x : ascii) : bool :=
  Ascii.eqb
    (small_of "ABCDEFGHIJKLMNOPQRSTUVWXYZ" "abcdefghijklmnopqrstuvwxyz" c)
    (small_of "ABCDEFGHIJKLMNOPQRSTUVWXYZ" "abcdefghijklmnopqrstuvwxyz" x).

(** [s] occurs in [field] when the capital and the small letters of the
    ASCII range are identified. *)
Fixpoint prefix_ci (s field : string) : bool :=
  match s, field with
  | "", _ => true
  | String c s', String x field' => same_letter c x && prefix_ci s' field'
  | String _ _, "" => false
  end.

Fixpoint contains_ci (s field : string) : bool :=
  prefix_ci s field ||
  match field with
  | "" => false
  | String _ field' => contains_ci s field'
  end.

(** The pattern bound for a filter when only the escaping and the
    wrapping are applied. *)
Definition like_pattern (s : string) : string :=
  "%" ++ replace_wildcards s ++ "%".

(** [s] with every occurrence of the character [o] replaced by [new]. *)
Fixpoint subst_char (o : ascii) (new s : string) : string :=
  match s with
  | "" => ""
  | String c s' =>
      if Ascii.eqb o c then new ++ subst_char o new s'
      else String c (subst_char o new s')
  end.

(** The digit characters: 0 to 9 and the superscript digits two, three
    and one of the Latin-1 supplement. *)
Definition digit_characters : string :=
  "0123456789" ++ string_of_codes [178; 179; 185].

Fixpoint occurs_in (s : string) (c : ascii) : bool :=
  match s with
  | "" => false
  | String x s' => Ascii.eqb c x || occurs_in s' c
  end.

(** Every character of the text is a digit character. *)
Definition only_digits (s : string) : bool :=
  all_chars (occurs_in digit_characters) s.



(** A cursor on which every statement fails with [error], one that finds
    no row, and an environment whose data store is empty. *)
Definition failing_cursor (error : exn) : cursor := fun _ _ => inl error.
Definition empty_cursor : cursor := fun _ _ => inr [].

Definition empty_env : environment :=
  {| argv0 := "reg.py"; sqlite3_connect := fun _ => inr empty_cursor |}.

(** * The detail report *)

(** Column [i] of a row. *)
Definition cell (r : row) (i : nat) : value := nth i r VNone.

(** The professor cells of a result set. *)
Definition prof_cells (results : list row) : list value :=
  map (fun r => cell r 12) results.

(** The text of the variable [dept_num] after the first loop. *)
Definition dept_lines (results : list row) : string :=
  match dept_prof_loop results "" [] with
  | inr (dept_num, _) => dept_num
  | inl _ => ""
  end.

Definition professor_line (name : string) : string :=
  "Professor: " ++ name ++ nl.

Definition flat (l : list string) : string := fold_right append "" l.

(** What the report prints before the professors. *)
Definition details_card (results : list row) : string :=
  let res := hd [] results in
  "Course Id: " ++ str (cell res 0) ++ nl ++ nl
  ++ "Days: " ++ str (cell res 1) ++ nl
  ++ "Start time: " ++ str (cell res 2) ++ nl
  ++ "End time: " ++ str (cell res 3) ++ nl
  ++ "Building: " ++ str (cell res 4) ++ nl
  ++ "Room: " ++ str (cell res 5) ++ nl ++ nl
  ++ dept_lines results ++ nl
  ++ "Area: " ++ str (cell res 8) ++ nl ++ nl
  ++ textwrap.fill ("Title: " ++ str (cell res 9)) 72 "" false ++ nl ++ nl
  ++ textwrap.fill ("Description: " ++ str (cell res 10)) 72 "" false
  ++ nl ++ nl
  ++ (if (0 <? String.length (str (cell res 11)))%nat
      then textwrap.fill ("Prerequisites: " ++ str (cell res 11)) 72 "" true
      else "Prerequisites:")
  ++ nl ++ nl.

(** The shape of a result set of the detail query: at least one row,
    thirteen columns in every row, and a text in the prerequisites
    column of the first row. *)
Definition detail_rows (results : list row) : Prop :=
  results <> []
  /\ Forall (fun r => List.length r = 13) results
  /\ exists prereqs, cell (hd [] results) 11 = VStr prereqs.

Definition str_lt (x y : string) : Prop := String.ltb x y = true.

(** The names in a list of professor cells that holds names only. *)
Fixpoint names_of (cells : list value) : option (list string) :=
  match cells with
  | [] => Some []
  | VStr name :: cells' =>
      match names_of cells' with
      | Some names => Some (name :: names)
      | None => None
      end
  | _ => None
  end.

(** The professors linked to the class of a result set: none when every
    row carries the absent marker, the names of the rows when every row
    carries a name.  A result set that mixes the two has no reading. *)
Definition professors (results : list row) : option (list string) :=
  if forallb (fun v => negb (is_not_None v)) (prof_cells results)
  then Some []
  else names_of (prof_cells results).

(** * The table *)





(** ** Where the chunks of a text begin and end *)

(** A place where a line of a word-wrapped text may end: a whitespace
    character or a hyphen. *)
Definition is_separator (c : ascii) : bool :=
  textwrap.is_whitespace c || textwrap.is_hyphen c.

Fixpoint ends_with (p : ascii -> bool) (s : string) : bool :=
  match s with
  | "" => false
  | String c "" => p c
  | String _ s' => ends_with p s'
  end.

(** The border between two neighbouring chunks lies after or before a
    separator. *)
Definition soft_boundary (c1 c2 : string) : Prop :=
  ends_with is_separator c1 = true
  \/ textwrap.starts_with is_separator c2 = true.

Fixpoint boundaries_ok (chunks : list string) : Prop :=
  match chunks with
  | c1 :: ((c2 :: _) as rest) => soft_boundary c1 c2 /\ boundaries_ok rest
  | _ => True
  end.

(** ** The rows of the table *)

(** The text of a row before its title: the four cells, each behind as
    many spaces as it is shorter than its column (of width 5, 4, 6 and
    4) and followed by a space. *)
Definition before_title (classid : Z) (dept coursenum area : string)
  : string :=
  (spaces (5 - String.length (str_of_Z classid)) ++ str_of_Z classid) ++ " "
  ++ (spaces (4 - String.length dept) ++ dept) ++ " "
  ++ (spaces (6 - String.length coursenum) ++ coursenum) ++ " "
  ++ (spaces (4 - String.length area) ++ area) ++ " ".




(** * Sample result sets *)

Definition sample_row (dept coursenum : string) (profname : value) : row :=
  [VInt 3672; VStr "TTh"; VStr "11:00 AM"; VStr "12:20 PM"; VStr "FRIEN";
   VStr "006"; VStr dept; VStr coursenum; VStr "QR";
   VStr "Advanced Programming Techniques";
   VStr "The practice of programming.";
   VStr "COS 217 and COS 226"; profname].

(** A class with two cross-listings and two professors. *)
Definition cross_listed : list row :=
  [sample_row "COS" "333" (VStr "Robert Dondero");
   sample_row "COS" "333" (VStr "Brian Kernighan");
   sample_row "EGR" "333" (VStr "Robert Dondero");
   sample_row "EGR" "333" (VStr "Brian Kernighan")].

(** A class listed as AAS 320 and as AS 320, without a professor. *)
Definition suffix_listed : list row :=
  [sample_row "AAS" "320" VNone; sample_row "AS" "320" VNone].

Definition long_title : string :=
  "Readings in American Literature: Twentieth-Century Fiction".


(** * Notions for the theorems on the rest of the code *)

(** A computation leaves the component [f] of the process as it is. *)
Definition keeps {A X : Type} (f : process -> X) (m : M A) : Prop :=
  forall p, f (snd (m p)) = f p.

(** A computation never leaves the program through [sys.exit]. *)
Definition never_exits {A : Type} (m : M A) : Prop :=
  forall p status, fst (m p) <> Exited status.

(** A run ends in one of two ways: through [sys.exit(1)] with nothing
    printed, or otherwise with nothing written to the error stream. *)
Definition clean_run {A : Type} (p : process) (r : outcome A * process)
  : Prop :=
  match fst r with
  | Exited status => status = 1%Z /\ stdout (snd r) = stdout p
  | _ => stderr (snd r) = stderr p
  end.

(** A row of the list query with cells of the types of its columns. *)
Record class_summary : Type := mkClassSummary {
  cs_classid : Z;
  cs_dept : string;
  cs_coursenum : string;
  cs_area : string;
  cs_title : string
}.

Definition summary_row (c : class_summary) : row :=
  [VInt (cs_classid c); VStr (cs_dept c); VStr (cs_coursenum c);
   VStr (cs_area c); VStr (cs_title c)].

(** The text of a row before wrapping, and the lines printed for it. *)
Definition summary_line (c : class_summary) : string :=
  before_title (cs_classid c) (cs_dept c) (cs_coursenum c) (cs_area c)
  ++ cs_title c.

Definition summary_text (c : class_summary) : string :=
  textwrap.fill (summary_line c) 72
    (spaces (String.length (summary_line c) - String.length (cs_title c)))
    false.

(** The text of the cross-listing of a row and the line printed for it. *)
Definition pair_text (r : row) : string :=
  str (cell r 6) ++ " " ++ str (cell r 7).

Definition dept_line (pair : string) : string :=
  "Dept and Number: " ++ pair ++ nl.

(** The pairs that get a line when the loop starts with the text [acc]. *)
Fixpoint listed_pairs (acc : string) (pairs : list string) : list string :=
  match pairs with
  | [] => []
  | x :: pairs' =>
      if negb (contains x acc)
      then x :: listed_pairs (acc ++ dept_line x) pairs'
      else listed_pairs acc pairs'
  end.

(** [l1] is [l2] with some elements left out. *)
Inductive subseq {A : Type} : list A -> list A -> Prop :=
  | subseq_nil : subseq [] []
  | subseq_take (x : A) (l1 l2 : list A) :
      subseq l1 l2 -> subseq (x :: l1) (x :: l2)
  | subseq_skip (x : A) (l1 l2 : list A) :
      subseq l1 l2 -> subseq l1 (x :: l2).

(** Number of occurrences of a character in a string. *)
Fixpoint count_char (c : ascii) (s : string) : nat :=
  match s with
  | "" => 0
  | String x s' => (if Ascii.eqb x c then 1 else 0) + count_char c s'
  end.

(** The filters with their contents hidden: only whether each is provided
    is left. *)
Definition mask (v : option string) : option string :=
  if truthy v then Some "x" else None.

Definition mask_args (args : Namespace) : Namespace :=
  {| d := mask (d args); n := mask (n args);
     a := mask (a args); t := mask (t args) |}.

(** The text to be wrapped holds no whitespace but the space. *)
Definition plain (s : string) : bool :=
  all_chars
    (fun c => negb (textwrap.is_space c) || Ascii.eqb c " ") s.

(** Two rows of the list query. *)
Definition two_classes : list class_summary :=
  [ {| cs_classid := 8321; cs_dept := "COS"; cs_coursenum := "333";
       cs_area := "QR"; cs_title := "Advanced Programming Techniques" |};
    {| cs_classid := 8322; cs_dept := "EGR"; cs_coursenum := "333";
       cs_area := ""; cs_title := long_title |} ].

(** * The definitions at work *)

Section Examples.

Example format_value_ex :
  format_value (Some "50%_A") = Some "%50@%@_a%".
Proof. reflexivity. Qed.

Example query_ex :
  get_search_query {| d := Some "%cos%"; n := None; a := Some ""; t := Some "%x%" |}
  = search_select ++ "WHERE dept LIKE ? escape '@' AND title LIKE ? escape '@' ORDER BY dept, coursenum, classid".
Proof. reflexivity. Qed.

Example split_ex :
  textwrap._split "Hello there -- you goof-ball, use the -b option!"
  = ["Hello"; " "; "there"; " "; "--"; " "; "you"; " "; "goof-"; "ball,";
     " "; "use"; " "; "the"; " "; "-b"; " "; "option!"].
Proof. reflexivity. Qed.

Example split_ex2 :
  textwrap._split "Hello--world  a-b-c-d x1-y2 e-mail"
  = ["Hello"; "--"; "world"; "  "; "a-b-"; "c-d"; " "; "x1-y2"; " "; "e-mail"].
Proof. reflexivity. Qed.

Example fill_ex :
  textwrap.fill "aaaa bbbb-cccc dddd" 8 "  " false
  = "aaaa" ++ nl ++ "  bbbb-" ++ nl ++ "  cccc" ++ nl ++ "  dddd".
Proof. reflexivity. Qed.

Example like_ex1 : sqlite.field_like "%50@%%" "Save 50% now" = true.
Proof. reflexivity. Qed.

Example like_ex2 : sqlite.field_like "%50@%%" "Save 500 now" = false.
Proof. reflexivity. Qed.

Example like_ex3 : sqlite.field_like "%c_s%" "xCOSx" = true.
Proof. reflexivity. Qed.

End Examples.

(** * Facts about strings *)

Section StringFacts.

Lemma append_assoc (s1 s2 s3 : string) : (s1 ++ s2) ++ s3 = s1 ++ (s2 ++ s3).
Proof. induction s1 as [|c s1 IH]; simpl; [reflexivity | now rewrite IH]. Qed.

Lemma append_nil_r (s : string) : s ++ "" = s.
Proof. induction s as [|c s IH]; simpl; [reflexivity | now rewrite IH]. Qed.

Lemma length_append (s1 s2 : string) :
  String.length (s1 ++ s2) = String.length s1 + String.length s2.
Proof. induction s1 as [|c s1 IH]; simpl; [reflexivity | now rewrite IH]. Qed.

Lemma prefix_nil (s : string) : prefix "" s = true.
Proof. destruct s; reflexivity. Qed.

Lemma prefix_char (o c : ascii) (s : string) :
  prefix (String o "") (String c s) = Ascii.eqb o c.
Proof.
  simpl. destruct (ascii_dec o c) as [->|Hne].
  - now rewrite prefix_nil, Ascii.eqb_refl.
  - symmetry. now apply Ascii.eqb_neq.
Qed.

(** Replacing a one-character string works character by character. *)
Lemma replace_char (o : ascii) (new s : string) :
  replace (String o "") new s = subst_char o new s.
Proof.
  unfold replace. induction s as [|c s IH]; [reflexivity|].
  cbn [replace_from subst_char]. rewrite prefix_char.
  cbn [String.length Nat.sub]. now rewrite IH.
Qed.

(** [str.lower] replaces every capital letter by its small letter. *)
Lemma lower_char_small (c : ascii) :
  lower_char c = small_of capital_letters small_letters c.
Proof. destruct c as [[] [] [] [] [] [] [] []]; reflexivity. Qed.

Lemma lower_lowercase (s : string) : lower s = lowercase s.
Proof.
  induction s as [|c s IH]; [reflexivity|].
  cbn [lower lowercase]. now rewrite lower_char_small, IH.
Qed.

End StringFacts.

(** * The query builder: theorems *)

Section QueryBuilder.

Lemma replace_wildcards_escape (s : string) :
  replace_wildcards s = escape_wildcards s.
Proof.
  unfold replace_wildcards.
  change "%" with (String "%" "") at 1. change "_" with (String "_" "") at 1.
  rewrite !replace_char.
  induction s as [|c s IH]; [reflexivity|].
  cbn [escape_wildcards subst_char]. unfold is_wildcard.
  rewrite (Ascii.eqb_sym c "%"), (Ascii.eqb_sym c "_").
  destruct (Ascii.eqb "%" c) eqn:E1.
  - apply Ascii.eqb_eq in E1; subst c. cbn. now rewrite IH.
  - cbn [orb subst_char]. destruct (Ascii.eqb "_" c) eqn:E2.
    + apply Ascii.eqb_eq in E2; subst c. cbn. now rewrite IH.
    + now rewrite IH.
Qed.

Lemma replace_newline_strip (s : string) :
  replace nl "" s = strip_newlines s.
Proof.
  unfold nl. rewrite replace_char.
  induction s as [|c s IH]; [reflexivity|].
  cbn [strip_newlines subst_char]. rewrite (Ascii.eqb_sym c).
  destruct (Ascii.eqb (ascii_of_nat 10) c); now rewrite IH.
Qed.

Lemma format_value_given (c : ascii) (s : string) :
  format_value (Some (String c s)) = Some (normalize (String c s)).
Proof.
  unfold format_value, normalize. cbn [truthy].
  now rewrite replace_wildcards_escape, replace_newline_strip,
    lower_lowercase.
Qed.

Lemma format_value_steps (v : option string) :
  format_value v
  = match v with
    | Some (String c s) => Some (normalize (String c s))
    | _ => v
    end.
Proof.
  destruct v as [[|c s]|]; [reflexivity | apply format_value_given | reflexivity].
Qed.

Lemma truthy_format_value (v : option string) :
  truthy (format_value v) = truthy v.
Proof. destruct v as [[|c s]|]; reflexivity. Qed.

Lemma append_if_given_app (v : option string) (ps : list string) :
  append_if_given v ps = (ps ++ given v)%list.
Proof.
  destruct v as [[|c s]|]; cbn; try reflexivity; now rewrite app_nil_r.
Qed.

Lemma search_parameters_provided (args : Namespace) :
  search_parameters args = provided args.
Proof.
  unfold search_parameters, provided. rewrite !append_if_given_app.
  cbn [app]. now rewrite <- !app_assoc.
Qed.

Lemma given_format_value (v : option string) :
  given (format_value v) = map normalize (given v).
Proof.
  rewrite format_value_steps. destruct v as [[|c s]|]; reflexivity.
Qed.

(** C4: a provided filter is normalised by escaping the two wildcard
    characters, lowering the case, removing the newline characters and
    wrapping the result in [%], in this order; a filter that is absent or
    empty is left as it is, and the parameters bound to the query are the
    normalised provided filters and nothing else. *)
Theorem format_args_steps (args : Namespace) :
  let step v :=
    match v with
    | Some (String c s) => Some (normalize (String c s))
    | _ => v
    end in
  format_args args
  = {| d := step (d args); n := step (n args);
       a := step (a args); t := step (t args) |}
  /\ search_parameters (format_args args) = map normalize (provided args)
  /\ List.length (present (format_args args)) = List.length (provided args).
Proof.
  cbv zeta. split; [|split].
  - unfold format_args. now rewrite !format_value_steps.
  - rewrite search_parameters_provided. unfold provided, format_args.
    cbn [d n a t]. rewrite !given_format_value, !map_app. reflexivity.
  - unfold present, columns, provided, format_args. cbn [d n a t filter snd].
    rewrite !truthy_format_value.
    destruct (d args) as [[|? ?]|], (n args) as [[|? ?]|],
      (a args) as [[|? ?]|], (t args) as [[|? ?]|]; reflexivity.
Qed.

(** C5: the list query is the fixed selection, then one LIKE predicate
    with escape character [@] per provided filter, on the columns dept,
    coursenum, area and title in this order and joined by AND behind a
    single WHERE (no WHERE clause at all when no filter is provided), then
    the ordering by dept, coursenum and classid; the parameters are the
    provided filter values in the order of the predicates, and the
    normalisation that [search] applies first does not change which
    filters are provided. *)
Theorem get_search_query_shape (args : Namespace) :
  get_search_query args = search_select ++ where_clause args ++ order_by
  /\ map Some (search_parameters args) = map snd (present args)
  /\ map fst (present (format_args args)) = map fst (present args)
  /\ match provided args with
     | [] => get_search_query args = search_select ++ order_by
     | _ :: _ =>
         where_clause args
         = "WHERE " ++ String.concat " AND " (map predicate (present args))
         /\ List.length (present args) = List.length (provided args)
     end.
Proof.
  destruct args as [[[|? ?]|] [[|? ?]|] [[|? ?]|] [[|? ?]|]];
    (split; [reflexivity | split; [reflexivity | split; [reflexivity|]]]);
    cbn [provided given d n a t app];
    try reflexivity; (split; reflexivity).
Qed.

(** C10: an empty filter is left unchanged by the normalisation, and the
    search it takes part in builds the same query, binds the same
    parameters and behaves in the same way as the search in which that
    filter is omitted. *)
Theorem empty_filter_is_absent (env : environment) (self : RegDB)
  (args : Namespace) :
  format_value (Some "") = Some ""
  /\ get_search_query (format_args args)
     = get_search_query (format_args (omit_empties args))
  /\ search_parameters (format_args args)
     = search_parameters (format_args (omit_empties args))
  /\ search env self args = search env self (omit_empties args).
Proof.
  assert (Hq : get_search_query (format_args args)
               = get_search_query (format_args (omit_empties args))).
  { destruct args as [[[|? ?]|] [[|? ?]|] [[|? ?]|] [[|? ?]|]]; reflexivity. }
  assert (Hp : search_parameters (format_args args)
               = search_parameters (format_args (omit_empties args))).
  { destruct args as [[[|? ?]|] [[|? ?]|] [[|? ?]|] [[|? ?]|]]; reflexivity. }
  repeat split; try assumption.
  unfold search. now rewrite Hq, Hp.
Qed.

(** ** Escaped patterns under LIKE *)










(** A null character ends the field for the operator: what follows it
    is not searched. *)
Example like_stops_at_null :
  let field := "ab" ++ String zero "cos" in
  sqlite.field_like "%cos%" field = false
  /\ sqlite.field_like "%ab%" field = true
  /\ sqlite.field_like "ab" field = true.
Proof. repeat split. Qed.

Example like_pattern_50 :
  like_pattern "50%" = "%50@%%"
  /\ sqlite.field_like (like_pattern "50%") "up to 50% off" = true
  /\ sqlite.field_like (like_pattern "50%") "room 500" = false.
Proof. repeat split. Qed.

(** C3: the escape character itself is not escaped.  The filter [@%]
    becomes the pattern [%@@%%], in which the user's [%] is a wildcard
    again: the pattern matches the field [a@b], which does not contain the
    filter, so the [%] of the input has widened the match. *)
Theorem escape_char_not_escaped :
  replace_wildcards "@%" = "@@%"
  /\ like_pattern "@%" = "%@@%%"
  /\ format_value (Some "@%") = Some "%@@%%"
  /\ sqlite.field_like (like_pattern "@%") "a@b" = true
  /\ contains "@%" "a@b" = false
  /\ contains_ci "@%" "a@b" = false.
Proof. repeat split. Qed.

End QueryBuilder.

(** * Failures and empty results *)

Section Failures.

Lemma is_digit_occurs (c : ascii) :
  is_digit c = occurs_in digit_characters c.
Proof. destruct c as [[] [] [] [] [] [] [] []]; reflexivity. Qed.

Lemma all_digits_only_digits (s : string) :
  all_chars is_digit s = only_digits s.
Proof.
  unfold only_digits. induction s as [|x s IH]; [reflexivity|].
  cbn [all_chars]. now rewrite is_digit_occurs, IH.
Qed.

(** [isdigit] holds of the texts that are not empty and hold digit
    characters only. *)
Lemma isdigit_nonempty_digits (s : string) :
  isdigit s = negb (String.eqb s "") && only_digits s.
Proof.
  destruct s as [|c s]; [reflexivity|].
  unfold isdigit. now rewrite all_digits_only_digits.
Qed.





(** The superscript two (code point 178) is a digit character for
    [isdigit]: the identifier made of it passes the check and the detail
    query is executed with it. *)
Example superscript_digit_is_queried :
  let class_id := VStr (string_of_codes [178]) in
  isdigit (str class_id) = true
  /\ executed (snd (get_details {| cur := empty_cursor |} class_id start))
     = [(get_details_query, [class_id])].
Proof. split; reflexivity. Qed.

(** C2: an error of the statement is caught by [search], which reports it
    and exits with status 1, but not by [get_details]: there the exception
    leaves the method, and nothing has been written to the error stream. *)
Theorem get_details_lets_db_error_escape (env : environment) (error : exn)
  (args : Namespace) (p : process) :
  get_details {| cur := failing_cursor error |} (VStr "123") p
  = (Raised error,
     {| stdout := stdout p;
        stderr := stderr p;
        executed := (executed p ++ [(get_details_query, [VStr "123"])])%list |})
  /\ search env {| cur := failing_cursor error |} args p
     = (Exited 1,
        {| stdout := stdout p;
           stderr := stderr p ++ argv0 env ++ ": " ++ exn_str error;
           executed :=
             (executed p
              ++ [(get_search_query (format_args args),
                   map VStr (search_parameters (format_args args)))])%list |}).
Proof. split; reflexivity. Qed.

Lemma get_details_empty (self : RegDB) (class_id : value) (p : process) :
  isdigit (str class_id) = true ->
  cur self get_details_query [class_id] = inr [] ->
  get_details self class_id p
  = (Exited 1,
     {| stdout := stdout p;
        stderr := stderr p ++ "no class with classid " ++ str class_id
                  ++ " exists";
        executed := (executed p ++ [(get_details_query, [class_id])])%list |}).
Proof.
  intros Hd Hc. unfold get_details, bind, execute_fetchall.
  rewrite Hd. cbn [negb ret]. rewrite Hc. reflexivity.
Qed.

Lemma main_empty (env : environment) (args : Namespace) (c : cursor) :
  sqlite3_connect env DB_URL = inr c ->
  c (get_search_query (format_args args))
    (map VStr (search_parameters (format_args args))) = inr [] ->
  main env (Parsed args) start
  = (Returned tt,
     {| stdout := header ++ nl ++ underline ++ nl;
        stderr := "";
        executed :=
          [(get_search_query (format_args args),
            map VStr (search_parameters (format_args args)))] |}).
Proof.
  intros Hconn Hc.
  unfold main, parse_args, RegDB_init, search, try_except, bind, lift,
    execute_fetchall.
  rewrite Hconn. cbn [ret raise cur]. rewrite Hc. reflexivity.
Qed.

(** C7: a list query that finds no row is not an error: the header and
    the underline are printed, nothing goes to the error stream and the
    program ends with status 0.  A detail query that finds no row is
    fatal: the message naming the class identifier goes to the error
    stream, nothing is printed and the exit status is 1. *)
Theorem empty_results_by_mode (env : environment) (args : Namespace)
  (c : cursor) (self : RegDB) (class_id : value) (p : process) :
  sqlite3_connect env DB_URL = inr c ->
  c (get_search_query (format_args args))
    (map VStr (search_parameters (format_args args))) = inr [] ->
  isdigit (str class_id) = true ->
  cur self get_details_query [class_id] = inr [] ->
  (main env (Parsed args) start
   = (Returned tt,
      {| stdout := header ++ nl ++ underline ++ nl;
         stderr := "";
         executed :=
           [(get_search_query (format_args args),
             map VStr (search_parameters (format_args args)))] |})
   /\ exit_status (fst (main env (Parsed args) start)) = 0%Z)
  /\ (get_details self class_id p
      = (Exited 1,
         {| stdout := stdout p;
            stderr := stderr p ++ "no class with classid " ++ str class_id
                      ++ " exists";
            executed :=
              (executed p ++ [(get_details_query, [class_id])])%list |})
      /\ exit_status (fst (get_details self class_id p)) = 1%Z).
Proof.
  intros Hconn Hc Hd Hq.
  rewrite (main_empty env args c Hconn Hc).
  rewrite (get_details_empty self class_id p Hd Hq).
  repeat split.
Qed.

Lemma empty_results_by_mode_witness :
  main empty_env
    (Parsed {| d := Some "zzz"; n := None; a := None; t := None |}) start
  = (Returned tt,
     {| stdout := header ++ nl ++ underline ++ nl;
        stderr := "";
        executed :=
          [(search_select ++ "WHERE dept LIKE ? escape '@'" ++ order_by,
            [VStr "%zzz%"])] |})
  /\ get_details {| cur := empty_cursor |} (VStr "999999") start
     = (Exited 1,
        {| stdout := "";
           stderr := "no class with classid 999999 exists";
           executed := [(get_details_query, [VStr "999999"])] |}).
Proof.
  pose proof (empty_results_by_mode empty_env
                {| d := Some "zzz"; n := None; a := None; t := None |}
                empty_cursor {| cur := empty_cursor |} (VStr "999999") start
                eq_refl eq_refl eq_refl eq_refl) as [[Hm _] [Hd _]].
  split; [exact Hm | exact Hd].
Defined.

End Failures.

(** * The detail report: theorems *)

Section Details.

Lemma item_cell (r : row) (i : nat) :
  i < List.length r -> item r i = inr (cell r i).
Proof.
  intro H. unfold item, cell. now rewrite (nth_error_nth' r VNone H).
Qed.

Lemma dept_prof_loop_cells (results : list row) :
  Forall (fun r => List.length r = 13) results ->
  forall dept_num profs,
  exists dept_num',
    dept_prof_loop results dept_num profs
    = inr (dept_num', (profs ++ prof_cells results)%list).
Proof.
  induction 1 as [|r results Hr _ IH]; intros dept_num profs.
  - exists dept_num. cbn. now rewrite app_nil_r.
  - cbn [dept_prof_loop].
    rewrite !item_cell by (rewrite Hr; lia).
    match goal with
    | |- context [dept_prof_loop results ?dn ?ps] =>
        destruct (IH dn ps) as [dn' ->]
    end.
    exists dn'. cbn [prof_cells map]. now rewrite <- app_assoc.
Qed.

Lemma dept_prof_loop_lines (results : list row) :
  Forall (fun r => List.length r = 13) results ->
  dept_prof_loop results "" [] = inr (dept_lines results, prof_cells results).
Proof.
  intro H. unfold dept_lines.
  destruct (dept_prof_loop_cells results H "" []) as [dn ->]. reflexivity.
Qed.

(** ** Sets and sorting of names *)

Lemma in_map_VStr (x : string) (l : list string) :
  In (VStr x) (map VStr l) <-> In x l.
Proof.
  split; [|apply in_map].
  intro H. apply in_map_iff in H as [y [Hy Hin]]. now inversion Hy; subst.
Qed.

Lemma list_set_names (names : list string) :
  list_set (map VStr names) = map VStr (nodup string_dec names).
Proof.
  unfold list_set. induction names as [|x names IH]; [reflexivity|].
  cbn [map nodup].
  destruct (in_dec value_eq_dec (VStr x) (map VStr names)) as [Hi|Hn],
           (in_dec string_dec x names) as [Hi'|Hn'].
  - exact IH.
  - exfalso. apply Hn'. now apply in_map_VStr.
  - exfalso. apply Hn. now apply in_map_VStr.
  - cbn [map]. now rewrite IH.
Qed.

Lemma list_set_none (k : nat) :
  list_set (repeat VNone (S k)) = [VNone].
Proof.
  unfold list_set. induction k as [|k IH]; [reflexivity|].
  change (repeat VNone (S (S k))) with (VNone :: repeat VNone (S k)).
  cbn [nodup].
  destruct (in_dec value_eq_dec VNone (repeat VNone (S k))) as [_|Hn].
  - exact IH.
  - exfalso. apply Hn. now left.
Qed.

Lemma ltb_trichotomy (x y : string) :
  String.ltb x y = false -> x <> y -> str_lt y x.
Proof.
  unfold str_lt, String.ltb. intros H Hne.
  rewrite (String.compare_antisym y x).
  destruct (String.compare x y) eqn:E; try discriminate; [|reflexivity].
  exfalso. apply Hne. now apply String.compare_eq_iff.
Qed.

Lemma insert_sorted_names (x : string) (l : list string) :
  Sorted str_lt l -> ~ In x l ->
  exists l',
    insert_sorted (VStr x) (map VStr l) = inr (map VStr l')
    /\ Sorted str_lt l'
    /\ Permutation (x :: l) l'
    /\ forall y, str_lt y x -> HdRel str_lt y l -> HdRel str_lt y l'.
Proof.
  induction l as [|y l IH]; intros Hs Hn.
  - exists [x]. repeat split; auto.
  - cbn [map insert_sorted value_lt].
    destruct (String.ltb x y) eqn:E.
    + exists (x :: y :: l). repeat split; auto.
    + assert (Hyx : str_lt y x).
      { apply ltb_trichotomy; [exact E|]. intro; subst. apply Hn. now left. }
      inversion Hs as [|? ? Hs' Hhd]; subst.
      destruct IH as [l' [Hi [Hsl [Hp Hh]]]]; [exact Hs'| |].
      { intro Hin. apply Hn. now right. }
      rewrite Hi. exists (y :: l'). repeat split.
      * constructor; [exact Hsl | now apply Hh].
      * rewrite perm_swap. now constructor.
      * intros z _ Hz. inversion Hz; subst. now constructor.
Qed.

Lemma sort_names (l : list string) :
  NoDup l ->
  exists l',
    sort (map VStr l) = inr (map VStr l')
    /\ Sorted str_lt l' /\ Permutation l l'.
Proof.
  induction 1 as [|x l Hn _ IH].
  - exists []. repeat split; constructor.
  - destruct IH as [l' [Hs [Hsl Hp]]]. cbn [map sort]. rewrite Hs.
    destruct (insert_sorted_names x l' Hsl) as [l'' [Hi [Hsl' [Hp' _]]]].
    { intro Hin. apply Hn. eapply Permutation_in; [symmetry; exact Hp | exact Hin]. }
    exists l''. repeat split; auto.
    eapply perm_trans; [|exact Hp']. now constructor.
Qed.

(** The professors of a result set, as the report lists them. *)
Lemma sorted_set_names (names : list string) :
  exists sorted,
    sort (list_set (map VStr names)) = inr (map VStr sorted)
    /\ Sorted str_lt sorted
    /\ NoDup sorted
    /\ forall x, In x sorted <-> In x names.
Proof.
  rewrite list_set_names.
  destruct (sort_names (nodup string_dec names)) as [l' [Hs [Hsl Hp]]].
  { apply NoDup_nodup. }
  exists l'. repeat split; auto.
  - eapply Permutation_NoDup; [exact Hp | apply NoDup_nodup].
  - intro Hin. apply (nodup_In string_dec).
    eapply Permutation_in; [symmetry; exact Hp | exact Hin].
  - intro Hin. eapply Permutation_in; [exact Hp|]. now apply nodup_In.
Qed.

(** ** The run of [display_details] on a well-shaped result set *)

Lemma row_of_13 (r : row) :
  List.length r = 13 ->
  exists c0 c1 c2 c3 c4 c5 c6 c7 c8 c9 c10 c11 c12,
    r = [c0; c1; c2; c3; c4; c5; c6; c7; c8; c9; c10; c11; c12].
Proof.
  intro H.
  do 13 (destruct r as [|? r]; [discriminate H|]).
  destruct r; [|discriminate H].
  repeat eexists.
Qed.

Lemma display_details_run (results : list row) (p : process)
  (v : value) (profs : list value) :
  detail_rows results ->
  sort (list_set (prof_cells results)) = inr (v :: profs) ->
  display_details results p
  = (Returned tt,
     {| stdout :=
          stdout p ++ details_card results
          ++ (if is_not_None v
              then drop_last 1 (prof_loop (v :: profs) "") ++ nl
              else "");
        stderr := stderr p;
        executed := executed p |}).
Proof.
  intros [Hne [Hall [prereqs Hpre]]] Hsort.
  destruct results as [|res rest]; [contradiction|].
  pose proof (dept_prof_loop_lines _ Hall) as Hloop.
  unfold display_details, details_card.
  set (dl := dept_lines (res :: rest)) in *.
  cbn [hd] in *.
  inversion Hall as [|? ? Hres _]; subst.
  destruct (row_of_13 res Hres)
    as (c0 & c1 & c2 & c3 & c4 & c5 & c6 & c7 & c8 & c9 & c10 & c11 & c12 & ->).
  cbn [cell nth] in *. subst c11.
  unfold bind at 1. cbn [lift item nth_error ret].
  unfold bind at 1. cbn [List.length Nat.eqb negb ret].
  unfold bind at 1. rewrite Hloop. cbn [lift ret fst snd].
  unfold bind at 1. rewrite Hsort. cbn [lift ret].
  repeat (unfold bind at 1;
          cbn [lift item nth_error ret print len stdout stderr executed]).
  cbn [str].
  destruct (0 <? String.length prereqs)%nat;
    destruct (is_not_None v);
    unfold print, ret; cbn [stdout stderr executed];
    rewrite ?append_assoc, ?append_nil_r; reflexivity.
Qed.

Lemma names_of_cells (cells : list value) (names : list string) :
  names_of cells = Some names -> cells = map VStr names.
Proof.
  revert names. induction cells as [|v cells IH]; intros names H.
  - now inversion H.
  - destruct v; try discriminate H. cbn [names_of] in H.
    destruct (names_of cells) as [ns|]; [|discriminate H].
    inversion H; subst. cbn [map]. now rewrite (IH ns eq_refl).
Qed.

Lemma none_only_cells (cells : list value) :
  forallb (fun v => negb (is_not_None v)) cells = true ->
  cells = repeat VNone (List.length cells).
Proof.
  induction cells as [|v cells IH]; [reflexivity|].
  cbn [forallb]. intro H. apply andb_true_iff in H as [Hv H].
  destruct v; try discriminate Hv. cbn [List.length repeat].
  now rewrite <- IH.
Qed.

Lemma prof_loop_flat (l : list string) (acc : string) :
  prof_loop (map VStr l) acc = acc ++ flat (map professor_line l).
Proof.
  revert acc. induction l as [|x l IH]; intro acc.
  - cbn. now rewrite append_nil_r.
  - cbn [map prof_loop flat fold_right str]. rewrite IH.
    unfold professor_line. now rewrite !append_assoc.
Qed.

Lemma flat_ends_with_newline (l : list string) :
  l <> [] -> exists body, flat (map professor_line l) = body ++ nl.
Proof.
  induction l as [|x l IH]; [contradiction|]. intros _.
  destruct l as [|y l].
  - exists ("Professor: " ++ x). cbn [flat map fold_right].
    unfold professor_line. now rewrite append_nil_r, append_assoc.
  - destruct IH as [body Hb]; [discriminate|].
    exists (professor_line x ++ body).
    change (flat (map professor_line (x :: y :: l)))
      with (professor_line x ++ flat (map professor_line (y :: l))).
    now rewrite Hb, append_assoc.
Qed.

Lemma drop_last_newline (s : string) : drop_last 1 (s ++ nl) = s.
Proof.
  unfold drop_last. rewrite length_append. cbn [String.length nl].
  replace (String.length s + 1 - 1) with (String.length s) by lia.
  induction s as [|c s IH]; [reflexivity|].
  cbn [append String.length substring]. now rewrite IH.
Qed.

(** C8: for a result set whose professor cells are names, the report
    ends with one professor line per distinct name, the names in
    increasing order and none twice; for a result set whose professor
    cells are all the absent marker it ends without any professor
    line. *)
Theorem professor_lines_sorted_distinct (results : list row) (p : process)
  (names : list string) :
  detail_rows results ->
  professors results = Some names ->
  exists sorted,
    Sorted str_lt sorted
    /\ NoDup sorted
    /\ (forall x, In x sorted <-> In x names)
    /\ display_details results p
       = (Returned tt,
          {| stdout :=
               stdout p ++ details_card results
               ++ flat (map professor_line sorted);
             stderr := stderr p;
             executed := executed p |}).
Proof.
  intros Hrows Hprofs. unfold professors in Hprofs.
  destruct (forallb _ (prof_cells results)) eqn:Hnone.
  - inversion Hprofs; subst names. exists [].
    repeat split; try constructor; try contradiction.
    apply none_only_cells in Hnone.
    assert (Hlen : exists k, List.length (prof_cells results) = S k).
    { destruct Hrows as [Hne _]. destruct results; [contradiction|].
      cbn. eauto. }
    destruct Hlen as [k Hk]. rewrite Hk in Hnone.
    rewrite (display_details_run results p VNone [] Hrows).
    + cbn [is_not_None flat map fold_right]. reflexivity.
    + now rewrite Hnone, list_set_none.
  - apply names_of_cells in Hprofs.
    destruct (sorted_set_names names) as [sorted [Hsort [Hs [Hnd Hin]]]].
    exists sorted. repeat split; auto; try apply Hin.
    assert (Hne : sorted <> []).
    { destruct Hrows as [Hne _]. destruct results as [|r rs]; [contradiction|].
      destruct names as [|x names]; [discriminate Hprofs|].
      intro E. subst sorted. apply (proj2 (Hin x)). now left. }
    destruct sorted as [|x sorted]; [contradiction|].
    rewrite (display_details_run results p (VStr x) (map VStr sorted) Hrows).
    + cbn [is_not_None]. change (VStr x :: map VStr sorted)
        with (map VStr (x :: sorted)).
      rewrite prof_loop_flat. cbn [append].
      destruct (flat_ends_with_newline (x :: sorted) Hne) as [body Hb].
      now rewrite Hb, drop_last_newline.
    + now rewrite Hprofs.
Qed.

End Details.

(** * Word wrapping: lines are made of whole chunks *)

Section Wrapping.

Import textwrap.

Variable self : TextWrapper.
Hypothesis keep_long_words : break_long_words self = false.







Lemma length_join (g : list string) :
  String.length (join g) = total_length g.
Proof.
  unfold join, total_length. induction g as [|c g IH]; [reflexivity|].
  destruct g as [|c' g].
  - cbn. lia.
  - change (String.concat "" (c :: c' :: g))
      with (c ++ "" ++ String.concat "" (c' :: g)).
    cbn [append]. rewrite length_append, IH. reflexivity.
Qed.




Lemma split_nonempty (text : string) :
  Forall (fun c => c <> "") (_split text).
Proof.
  unfold _split. apply Forall_forall. intros c Hc.
  apply filter_In in Hc as [_ Hc]. now destruct c.
Qed.


End Wrapping.

(** * Word wrapping: where the chunks meet *)

Section Splitting.

Import textwrap.

Lemma take_drop (k : nat) (s : string) : take k s ++ drop k s = s.
Proof.
  revert s. induction k as [|k IH]; intros [|c s]; cbn; try reflexivity.
  now rewrite IH.
Qed.

Lemma length_drop (k : nat) (s : string) :
  String.length (drop k s) = String.length s - k.
Proof.
  revert s. induction k as [|k IH]; intros [|c s]; cbn; try reflexivity.
  apply IH.
Qed.

Lemma ends_with_cons (p : ascii -> bool) (c : ascii) (s : string) :
  ends_with p s = true -> ends_with p (String c s) = true.
Proof. destruct s; [discriminate | auto]. Qed.

Lemma ends_with_all (p : ascii -> bool) (s : string) :
  s <> "" -> all_chars p s = true -> ends_with p s = true.
Proof.
  induction s as [|c s IH]; [contradiction|]. intros _ H.
  cbn [all_chars] in H. apply andb_true_iff in H as [Hc Hs].
  destruct s as [|c' s]; [exact Hc|].
  apply ends_with_cons. apply IH; [discriminate | exact Hs].
Qed.

Lemma whitespace_run_spec (s : string) :
  whitespace_run s <= String.length s
  /\ all_chars is_whitespace (take (whitespace_run s) s) = true.
Proof.
  induction s as [|c s [IH1 IH2]]; [split; [cbn; lia | reflexivity]|].
  cbn [whitespace_run]. destruct (is_whitespace c) eqn:E.
  - cbn [String.length take all_chars]. rewrite E, IH2. split; [lia | auto].
  - split; [cbn; lia | reflexivity].
Qed.

Lemma hyphen_run_spec (s : string) :
  hyphen_run s <= String.length s
  /\ all_chars is_hyphen (take (hyphen_run s) s) = true.
Proof.
  induction s as [|c s [IH1 IH2]]; [split; [cbn; lia | reflexivity]|].
  cbn [hyphen_run]. destruct (is_hyphen c) eqn:E.
  - cbn [String.length take all_chars]. rewrite E, IH2. split; [lia | auto].
  - split; [cbn; lia | reflexivity].
Qed.

Lemma all_chars_separator (p : ascii -> bool) (s : string) :
  (forall c, p c = true -> is_separator c = true) ->
  all_chars p s = true -> all_chars is_separator s = true.
Proof.
  intros Hp. induction s as [|c s IH]; [reflexivity|].
  cbn [all_chars]. intro H. apply andb_true_iff in H as [Hc Hs].
  now rewrite (Hp c Hc), IH.
Qed.

Lemma whitespace_separator (c : ascii) :
  is_whitespace c = true -> is_separator c = true.
Proof. unfold is_separator. now intros ->. Qed.

Lemma hyphen_separator (c : ascii) :
  is_hyphen c = true -> is_separator c = true.
Proof. unfold is_separator. intros ->. apply orb_true_r. Qed.

(** The word alternative stops after a hyphen, at the end of the text or
    before a separator. *)
Lemma word_rest_spec (s : string) :
  forall back (c : ascii),
    word_rest back s <= String.length s
    /\ (ends_with is_separator (String c (take (word_rest back s) s)) = true
        \/ drop (word_rest back s) s = ""
        \/ starts_with is_separator (drop (word_rest back s) s) = true).
Proof.
  induction s as [|x s IH]; intros back c.
  - cbn. split; [lia | right; left; reflexivity].
  - cbn [word_rest].
    destruct (hyphen_break_at back (String x s)) eqn:A.
    + split; [cbn; lia|]. left. cbn [take ends_with].
      unfold hyphen_break_at in A.
      apply andb_true_iff in A as [A _]. apply andb_true_iff in A as [A _].
      now apply hyphen_separator.
    + destruct (end_of_word (String x s)) eqn:B.
      * split; [lia|]. right; right. cbn [drop starts_with].
        now apply whitespace_separator.
      * destruct (em_dash_at back (String x s)) eqn:C.
        -- split; [lia|]. right; right. cbn [drop starts_with].
           unfold em_dash_at in C.
           apply andb_true_iff in C as [C _]. apply andb_true_iff in C as [_ C].
           cbn [hyphen_run] in C. destruct (is_hyphen x) eqn:Hx.
           ++ now apply hyphen_separator.
           ++ discriminate C.
        -- destruct (IH (x :: back) x) as [IH1 IH2].
           split; [cbn; lia|]. cbn [take drop].
           destruct IH2 as [H | [H | H]]; auto.
Qed.

(** A chunk is not empty, and it ends after a separator, at the end of
    the text or before a separator. *)
Lemma chunk_length_spec (back : list ascii) (s : string) :
  s <> "" ->
  1 <= chunk_length back s <= String.length s
  /\ (ends_with is_separator (take (chunk_length back s) s) = true
      \/ drop (chunk_length back s) s = ""
      \/ starts_with is_separator (drop (chunk_length back s) s) = true).
Proof.
  destruct s as [|c s]; [contradiction|]. intros _. cbn [chunk_length].
  destruct (is_whitespace c) eqn:W.
  - destruct (whitespace_run_spec (String c s)) as [H1 H2].
    assert (Hk : 1 <= whitespace_run (String c s)).
    { cbn [whitespace_run]. rewrite W. lia. }
    split; [lia|]. left. apply ends_with_all.
    + destruct (whitespace_run (String c s)); [lia | discriminate].
    + now apply (all_chars_separator is_whitespace),  H2;
        apply whitespace_separator.
  - destruct (em_dash_at back (String c s)) eqn:D.
    + destruct (hyphen_run_spec (String c s)) as [H1 H2].
      assert (Hk : 2 <= hyphen_run (String c s)).
      { unfold em_dash_at in D.
        apply andb_true_iff in D as [D _]. apply andb_true_iff in D as [_ D].
        now apply Nat.leb_le in D. }
      split; [lia|]. left. apply ends_with_all.
      * destruct (hyphen_run (String c s)); [lia | discriminate].
      * apply (all_chars_separator is_hyphen); [apply hyphen_separator | exact H2].
    + destruct (word_rest_spec s (c :: back) c) as [H1 H2].
      split; [cbn; lia | exact H2].
Qed.

Lemma starts_with_prefix (p : ascii -> bool) (c r : string) :
  c <> "" -> starts_with p (c ++ r) = starts_with p c.
Proof. destruct c; [contradiction | reflexivity]. Qed.

Lemma take_nonempty (k : nat) (s : string) :
  1 <= k -> s <> "" -> take k s <> "".
Proof. destruct k, s; try lia; try contradiction; discriminate. Qed.

(** The chunks make up the text, none is empty, and neighbours meet at
    separators. *)
Lemma split_from_spec (fuel : nat) :
  forall back s,
    String.length s <= fuel ->
    flat (split_from fuel back s) = s
    /\ Forall (fun c => c <> "") (split_from fuel back s)
    /\ boundaries_ok (split_from fuel back s)
    /\ match split_from fuel back s with
       | c :: _ => exists r, s = c ++ r /\ c <> ""
       | [] => s = ""
       end.
Proof.
  induction fuel as [|fuel IH]; intros back s Hlen.
  - destruct s; [|cbn in Hlen; lia]. cbn. repeat split; constructor.
  - destruct s as [|c0 s0]; [cbn; repeat split; constructor|].
    set (s := String c0 s0) in *.
    assert (Hs : s <> "") by discriminate.
    destruct (chunk_length_spec back s Hs) as [[Hk1 Hk2] Hb].
    change (split_from (S fuel) back s)
      with (take (chunk_length back s) s
            :: split_from fuel
                 (rev (list_ascii_of_string (take (chunk_length back s) s))
                  ++ back)%list
                 (drop (chunk_length back s) s)).
    set (k := chunk_length back s) in *.
    set (back' := (rev (list_ascii_of_string (take k s)) ++ back)%list).
    assert (Hlen' : String.length (drop k s) <= fuel).
    { rewrite length_drop. subst s. cbn [String.length] in *. lia. }
    destruct (IH back' (drop k s) Hlen') as (Hf & Hne & Hbd & Hhd).
    assert (Htk : take k s <> "") by now apply take_nonempty.
    split; [|split; [|split]].
    + cbn [flat fold_right]. fold (flat (split_from fuel back' (drop k s))).
      rewrite Hf. apply take_drop.
    + constructor; assumption.
    + cbn [boundaries_ok].
      destruct (split_from fuel back' (drop k s)) as [|c2 rest] eqn:E;
        [exact I|].
      split; [|exact Hbd].
      destruct Hhd as [r [Hd Hc2]].
      destruct Hb as [H | [H | H]].
      * now left.
      * rewrite H in Hd. destruct c2; [contradiction | discriminate Hd].
      * right. rewrite Hd in H. now rewrite starts_with_prefix in H.
    + exists (drop k s). split; [symmetry; apply take_drop | exact Htk].
Qed.

Lemma filter_nonempty (l : list string) :
  Forall (fun c => c <> "") l -> filter nonempty l = l.
Proof.
  induction 1 as [|c l Hc _ IH]; [reflexivity|].
  cbn [filter]. destruct c; [contradiction|]. cbn [nonempty]. now rewrite IH.
Qed.

(** The chunks of [_split]. *)
Lemma split_spec (text : string) :
  flat (_split text) = text /\ boundaries_ok (_split text).
Proof.
  unfold _split.
  destruct (split_from_spec (String.length text) [] text (le_n _))
    as (Hf & Hne & Hb & _).
  rewrite (filter_nonempty _ Hne). split; assumption.
Qed.

End Splitting.

(** * The rows of the table: theorem *)

Section Table.

Lemma length_spaces (k : nat) : String.length (spaces k) = k.
Proof. induction k as [|k IH]; cbn; [reflexivity | now rewrite IH]. Qed.

Lemma display_row_fill (classid : Z) (dept coursenum area title : string)
  (p : process) :
  display_row 72 [VInt classid; VStr dept; VStr coursenum; VStr area;
                  VStr title] p
  = print (textwrap.fill (before_title classid dept coursenum area ++ title)
             72
             (spaces (String.length
                        (before_title classid dept coursenum area ++ title)
                      - String.length title))
             false) p.
Proof.
  unfold display_row, bind, before_title.
  cbn [lift format_right len ret str]. unfold rjust.
  now rewrite !append_assoc.
Qed.


End Table.

(** * The sample result sets *)

Section Samples.

Example cross_listed_report :
  display_details cross_listed start
  = (Returned tt,
     {| stdout :=
          String.concat nl
            ["Course Id: 3672"; "";
             "Days: TTh";
             "Start time: 11:00 AM";
             "End time: 12:20 PM";
             "Building: FRIEN";
             "Room: 006"; "";
             "Dept and Number: COS 333";
             "Dept and Number: EGR 333"; "";
             "Area: QR"; "";
             "Title: Advanced Programming Techniques"; "";
             "Description: The practice of programming."; "";
             "Prerequisites: COS 217 and COS 226"; "";
             "Professor: Brian Kernighan";
             "Professor: Robert Dondero"] ++ nl;
        stderr := "";
        executed := [] |}).
Proof. vm_compute. reflexivity. Qed.

(** C1: the loop tests whether the text of a pair occurs in the lines
    built so far, not whether the pair was seen.  For a class listed as
    AAS 320 and as AS 320 the second pair occurs inside the line of the
    first, and the report has one line for two distinct pairs. *)
Theorem substring_test_hides_cross_listing :
  map (fun r => (cell r 6, cell r 7)) suffix_listed
  = [(VStr "AAS", VStr "320"); (VStr "AS", VStr "320")]
  /\ contains "AS 320" ("Dept and Number: AAS 320" ++ nl) = true
  /\ dept_lines suffix_listed = "Dept and Number: AAS 320" ++ nl
  /\ display_details suffix_listed start
     = (Returned tt,
        {| stdout :=
             String.concat nl
               ["Course Id: 3672"; "";
                "Days: TTh";
                "Start time: 11:00 AM";
                "End time: 12:20 PM";
                "Building: FRIEN";
                "Room: 006"; "";
                "Dept and Number: AAS 320"; "";
                "Area: QR"; "";
                "Title: Advanced Programming Techniques"; "";
                "Description: The practice of programming."; "";
                "Prerequisites: COS 217 and COS 226"; ""] ++ nl;
           stderr := "";
           executed := [] |}).
Proof. repeat split; vm_compute; reflexivity. Qed.

Lemma cross_listed_rows : detail_rows cross_listed.
Proof.
  split; [discriminate|]. split.
  - repeat constructor.
  - exists "COS 217 and COS 226". reflexivity.
Defined.

Lemma professor_lines_sorted_distinct_witness :
  detail_rows cross_listed
  /\ professors cross_listed
     = Some ["Robert Dondero"; "Brian Kernighan"; "Robert Dondero";
             "Brian Kernighan"]
  /\ exists sorted,
       Sorted str_lt sorted
       /\ NoDup sorted
       /\ (forall x,
             In x sorted
             <-> In x ["Robert Dondero"; "Brian Kernighan"; "Robert Dondero";
                       "Brian Kernighan"])
       /\ display_details cross_listed start
          = (Returned tt,
             {| stdout :=
                  stdout start ++ details_card cross_listed
                  ++ flat (map professor_line sorted);
                stderr := stderr start;
                executed := executed start |}).
Proof.
  split; [exact cross_listed_rows|]. split; [reflexivity|].
  exact (professor_lines_sorted_distinct cross_listed start _
           cross_listed_rows eq_refl).
Defined.


(** A word that holds two hyphens in a row is divided before them when
    they no longer fit: the first printed line ends with Hello and the
    second begins with the hyphens. *)
Example dashes_open_a_line :
  display_row 72
    [VInt 1234; VStr "COS"; VStr "333"; VStr "QR";
     VStr "Topics in the Study of Computer Greetings: Hello--world again"]
    start
  = (Returned tt,
     {| stdout :=
          String.concat nl
            [" 1234  COS    333   QR Topics in the Study of Computer Greetings: Hello";
             "                       --world again"] ++ nl;
        stderr := "";
        executed := [] |}).
Proof. vm_compute. reflexivity. Qed.

End Samples.

(** * The effects of the methods: what they leave alone *)

Section Effects.

Context {X : Type} (f : process -> X).

Lemma keeps_ret {A : Type} (x : A) : keeps f (ret x).
Proof. intro p. reflexivity. Qed.

Lemma keeps_raise {A : Type} (e : exn) : keeps f (@raise A e).
Proof. intro p. reflexivity. Qed.

Lemma keeps_sys_exit {A : Type} (status : Z) : keeps f (@sys_exit A status).
Proof. intro p. reflexivity. Qed.

Lemma keeps_lift {A : Type} (r : exn + A) : keeps f (lift r).
Proof. destruct r; [apply keeps_raise | apply keeps_ret]. Qed.

Lemma keeps_bind {A B : Type} (m : M A) (k : A -> M B) :
  keeps f m -> (forall x, keeps f (k x)) -> keeps f (bind m k).
Proof.
  intros Hm Hk p. unfold bind. specialize (Hm p).
  destruct (m p) as [[x|status|e] p']; cbn [snd] in *; try exact Hm.
  now rewrite (Hk x p').
Qed.

Lemma keeps_try_except {A : Type} (m : M A) (handler : exn -> M A) :
  keeps f m -> (forall e, keeps f (handler e)) -> keeps f (try_except m handler).
Proof.
  intros Hm Hh p. unfold try_except. specialize (Hm p).
  destruct (m p) as [[x|status|e] p']; cbn [snd] in *; try exact Hm.
  now rewrite (Hh e p').
Qed.

End Effects.

Section Exits.

Lemma never_exits_ret {A : Type} (x : A) : never_exits (ret x).
Proof. intros p status. discriminate. Qed.

Lemma never_exits_raise {A : Type} (e : exn) : never_exits (@raise A e).
Proof. intros p status. discriminate. Qed.

Lemma never_exits_lift {A : Type} (r : exn + A) : never_exits (lift r).
Proof. destruct r; [apply never_exits_raise | apply never_exits_ret]. Qed.

Lemma never_exits_print (s : string) : never_exits (print s).
Proof. intros p status. discriminate. Qed.

Lemma never_exits_bind {A B : Type} (m : M A) (k : A -> M B) :
  never_exits m -> (forall x, never_exits (k x)) -> never_exits (bind m k).
Proof.
  intros Hm Hk p status. unfold bind. specialize (Hm p).
  destruct (m p) as [[x|st|e] p']; cbn [fst] in *.
  - apply Hk.
  - now elim (Hm st).
  - discriminate.
Qed.

Lemma print_keeps_stderr (s : string) : keeps stderr (print s).
Proof. intro p. reflexivity. Qed.

Lemma print_keeps_executed (s : string) : keeps executed (print s).
Proof. intro p. reflexivity. Qed.

Lemma stderr_write_keeps_executed (s : string) :
  keeps executed (stderr_write s).
Proof. intro p. reflexivity. Qed.

End Exits.

Create HintDb effects.

#[export] Hint Resolve keeps_ret keeps_raise keeps_sys_exit keeps_lift
  never_exits_ret never_exits_raise never_exits_lift never_exits_print
  print_keeps_stderr print_keeps_executed stderr_write_keeps_executed
  : effects.

(** Breaks a goal on a computation down along its binds and branches. *)
Ltac effects :=
  repeat first
    [ progress cbv zeta
    | progress intros
    | apply keeps_bind
    | apply never_exits_bind
    | solve [auto with effects]
    | match goal with
      | |- keeps _ (if ?b then _ else _) => destruct b
      | |- never_exits (if ?b then _ else _) => destruct b
      | |- keeps _ (match ?x with _ => _ end) => destruct x
      | |- never_exits (match ?x with _ => _ end) => destruct x
      end ].

(** * The presenter and the cursor, the exits and the error stream *)

Section Runs.

Lemma display_row_keeps {X : Type} (f : process -> X) (max_len : nat)
  (curr : row) :
  (forall s, keeps f (print s)) -> keeps f (display_row max_len curr).
Proof.
  intro Hprint. unfold display_row.
  do 6 (destruct curr as [|? curr]; [effects|]); effects.
Qed.

Lemma display_row_never_exits (max_len : nat) (curr : row) :
  never_exits (display_row max_len curr).
Proof.
  unfold display_row.
  do 6 (destruct curr as [|? curr]; [effects|]); effects.
Qed.

Lemma display_table_keeps {X : Type} (f : process -> X)
  (results : list row) (max_len : nat) :
  (forall s, keeps f (print s)) -> keeps f (display_table results max_len).
Proof.
  intro Hprint. unfold display_table.
  apply keeps_bind; [apply Hprint | intros _].
  apply keeps_bind; [apply Hprint | intros _].
  induction results as [|curr results IH]; cbn [display_rows].
  - apply keeps_ret.
  - apply keeps_bind; [now apply display_row_keeps | intros _; exact IH].
Qed.

Lemma display_table_never_exits (results : list row) (max_len : nat) :
  never_exits (display_table results max_len).
Proof.
  unfold display_table.
  apply never_exits_bind; [apply never_exits_print | intros _].
  apply never_exits_bind; [apply never_exits_print | intros _].
  induction results as [|curr results IH]; cbn [display_rows].
  - apply never_exits_ret.
  - apply never_exits_bind;
      [apply display_row_never_exits | intros _; exact IH].
Qed.

Lemma display_details_keeps_executed (results : list row) :
  keeps executed (display_details results).
Proof. unfold display_details. effects. Qed.

(** After the check of the number of columns the report neither exits
    nor writes to the error stream. *)
Lemma clean_run_quiet {A : Type} (m : M A) (p0 p : process) :
  never_exits m -> keeps stderr m -> stderr p = stderr p0 ->
  clean_run p0 (m p).
Proof.
  intros Hn Hk Hp. unfold clean_run. specialize (Hn p). specialize (Hk p).
  destruct (fst (m p)) as [x|status|e].
  - now rewrite Hk.
  - now elim (Hn status).
  - now rewrite Hk.
Qed.

Lemma display_details_clean (results : list row) (p0 p : process) :
  stdout p = stdout p0 -> stderr p = stderr p0 ->
  clean_run p0 (display_details results p).
Proof.
  intros Ho He. unfold display_details.
  destruct results as [|res rest].
  - unfold clean_run. cbn. exact He.
  - unfold bind at 1. cbn [lift item nth_error ret].
    unfold bind at 1.
    destruct (negb (List.length res =? 13)%nat).
    + unfold clean_run. cbn. split; [reflexivity | exact Ho].
    + cbn [ret]. apply clean_run_quiet; [effects | effects | exact He].
Qed.

(** X1: when the data store cannot be opened, [main] writes the name of
    the program and the error to the error stream and exits with status
    1; nothing is printed and no statement is executed. *)
Theorem main_connection_failure (env : environment) (args : Namespace)
  (error : exn) (p : process) :
  sqlite3_connect env DB_URL = inl error ->
  main env (Parsed args) p
  = (Exited 1,
     {| stdout := stdout p;
        stderr := stderr p ++ argv0 env ++ ": " ++ exn_str error;
        executed := executed p |}).
Proof.
  intro H. unfold main, parse_args, RegDB_init, bind, try_except, lift.
  rewrite H. reflexivity.
Qed.

Lemma main_connection_failure_witness :
  main {| argv0 := "reg.py";
          sqlite3_connect := fun _ => inl (DbError "unable to open database file") |}
       (Parsed {| d := Some "COS"; n := None; a := None; t := None |}) start
  = (Exited 1,
     {| stdout := "";
        stderr := "reg.py: unable to open database file";
        executed := [] |}).
Proof.
  exact (main_connection_failure
           {| argv0 := "reg.py";
              sqlite3_connect :=
                fun _ => inl (DbError "unable to open database file") |}
           {| d := Some "COS"; n := None; a := None; t := None |}
           (DbError "unable to open database file") start eq_refl).
Defined.

(** X2: a run of [search] sends exactly one statement to the cursor, the
    list query with its parameters, whatever the cursor answers and
    whatever the rows look like; a run of [get_details] sends exactly
    the detail query with the class identifier when the identifier is
    not empty and consists of digit characters, and nothing otherwise;
    [display_details] and [display_table] send nothing to the cursor. *)
Theorem one_statement_per_run (env : environment) (self : RegDB)
  (args : Namespace) (class_id : value) (results : list row)
  (max_len : nat) (p : process) :
  executed (snd (search env self args p))
  = (executed p
     ++ [(get_search_query (format_args args),
          map VStr (search_parameters (format_args args)))])%list
  /\ executed (snd (get_details self class_id p))
     = (if negb (String.eqb (str class_id) "") && only_digits (str class_id)
        then (executed p ++ [(get_details_query, [class_id])])%list
        else executed p)
  /\ executed (snd (display_details results p)) = executed p
  /\ executed (snd (display_table results max_len p)) = executed p.
Proof.
  split; [|split; [|split]].
  - unfold search, bind, try_except, execute_fetchall.
    destruct (cur self _ _) as [e|rows]; [reflexivity|].
    now rewrite (display_table_keeps executed rows 72 print_keeps_executed).
  - rewrite <- isdigit_nonempty_digits.
    unfold get_details. unfold bind at 1.
    destruct (isdigit (str class_id)); [|reflexivity].
    cbn [negb ret]. unfold bind at 1, execute_fetchall.
    destruct (cur self _ _) as [e|rows]; [reflexivity|].
    unfold bind at 1.
    destruct (List.length rows =? 0)%nat; [reflexivity|].
    cbn [ret]. now rewrite (display_details_keeps_executed rows).
  - apply display_details_keeps_executed.
  - apply display_table_keeps, print_keeps_executed.
Qed.

(** X3: a run of [main] ends in one of four ways: for [-h], through an
    exit with status 0 after the help text is printed; for a command
    line that argparse rejects, through an exit with status 2 after
    the usage message is written to the error stream, with nothing
    printed; and once the command line is parsed, either through
    [sys.exit] with status 1 and without anything printed, or (by a
    return or an exception) without anything written to the error
    stream.  A run of [get_details] ends in one of the last two
    ways. *)
Theorem runs_are_clean (env : environment) (self : RegDB)
  (command : command_line) (class_id : value) (p : process) :
  match command with
  | Parsed _ => clean_run p (main env command p)
  | Help text =>
      main env command p
      = (Exited 0,
         {| stdout := stdout p ++ text;
            stderr := stderr p;
            executed := executed p |})
  | UsageError text =>
      main env command p
      = (Exited 2,
         {| stdout := stdout p;
            stderr := stderr p ++ text;
            executed := executed p |})
  end
  /\ clean_run p (get_details self class_id p).
Proof.
  split.
  - destruct command as [args|text|text]; [|reflexivity|reflexivity].
    unfold main, parse_args. unfold bind at 1. cbn [ret].
    unfold RegDB_init. unfold bind at 1. unfold try_except.
    unfold bind at 1, lift.
    destruct (sqlite3_connect env DB_URL) as [e|c].
    + unfold clean_run. cbn. auto.
    + cbn [ret raise]. unfold search. unfold bind at 1.
      unfold bind at 1. unfold try_except, execute_fetchall.
      cbn [cur].
      match goal with
      | |- context [c ?q ?ps] => destruct (c q ps) as [e|rows]
      end.
      * unfold clean_run. cbn. auto.
      * match goal with
        | |- clean_run p (match display_table rows 72 ?q with _ => _ end) =>
            change (clean_run p
                      (bind (display_table rows 72)
                            (fun _ => close {| cur := c |}) q))
        end.
        apply clean_run_quiet; [| |reflexivity].
        -- apply never_exits_bind;
             [apply display_table_never_exits | intros; apply never_exits_ret].
        -- apply keeps_bind;
             [apply display_table_keeps, print_keeps_stderr
             | intros; apply keeps_ret].
  - unfold get_details. unfold bind at 1.
    destruct (isdigit (str class_id)).
    + cbn [negb ret]. unfold bind at 1, execute_fetchall.
      destruct (cur self _ _) as [e|results].
      * unfold clean_run. cbn. reflexivity.
      * unfold bind at 1.
        destruct (List.length results =? 0)%nat.
        -- unfold clean_run. cbn. auto.
        -- cbn [ret]. now apply display_details_clean.
    + unfold clean_run. cbn. auto.
Qed.

(** X4: [display_details] trusts only the first row: when it does not
    have thirteen columns the method writes its message to the error
    stream and exits with status 1 without printing, and on an empty
    result set the indexing of the first row raises [IndexError]. *)
Theorem display_details_wrong_shape (res : row) (rest : list row)
  (p : process) :
  List.length res <> 13 ->
  display_details (res :: rest) p
  = (Exited 1,
     {| stdout := stdout p;
        stderr := stderr p ++ "Error: Invalid number items in details display";
        executed := executed p |})
  /\ display_details [] p = (Raised IndexError, p).
Proof.
  intro H. split; [|reflexivity].
  unfold display_details. unfold bind at 1. cbn [lift item nth_error ret].
  unfold bind at 1.
  apply Nat.eqb_neq in H. rewrite H. reflexivity.
Qed.

Lemma display_details_wrong_shape_witness :
  display_details [[VInt 1; VStr "MW"]] start
  = (Exited 1,
     {| stdout := "";
        stderr := "Error: Invalid number items in details display";
        executed := [] |}).
Proof.
  apply (display_details_wrong_shape [VInt 1; VStr "MW"] [] start).
  cbn. discriminate.
Defined.

End Runs.

(** * The list mode from end to end *)

Section ListMode.

Lemma display_row_summary (c : class_summary) (p : process) :
  display_row 72 (summary_row c) p = print (summary_text c) p.
Proof. destruct c. apply display_row_fill. Qed.

Lemma display_rows_summaries (classes : list class_summary) :
  forall p,
    display_rows 72 (map summary_row classes) p
    = (Returned tt,
       {| stdout :=
            stdout p ++ flat (map (fun c => summary_text c ++ nl) classes);
          stderr := stderr p;
          executed := executed p |}).
Proof.
  induction classes as [|c classes IH]; intro p.
  - cbn. rewrite append_nil_r. now destruct p.
  - cbn [map display_rows]. unfold bind at 1.
    rewrite display_row_summary. unfold print at 1. rewrite IH.
    cbn [stdout stderr executed flat fold_right].
    now rewrite !append_assoc.
Qed.

Lemma display_row_null (max_len : nat) (c1 c2 c3 c4 c5 : value)
  (p : process) :
  In VNone [c1; c2; c3; c4] ->
  display_row max_len [c1; c2; c3; c4; c5] p = (Raised TypeError, p).
Proof.
  intro H.
  destruct c1, c2, c3, c4; try reflexivity;
    exfalso; cbn in H; intuition discriminate.
Qed.

(** X5: when the data store opens and the list query yields rows with an
    integer class identifier and text in the other columns, [main]
    prints the header, the underline and then the wrapped text of each
    row in the order of the rows, writes nothing to the error stream,
    executes the one statement and returns. *)
Theorem list_mode_output (env : environment) (args : Namespace)
  (c : cursor) (classes : list class_summary) (p : process) :
  sqlite3_connect env DB_URL = inr c ->
  c (get_search_query (format_args args))
    (map VStr (search_parameters (format_args args)))
  = inr (map summary_row classes) ->
  main env (Parsed args) p
  = (Returned tt,
     {| stdout :=
          stdout p ++ header ++ nl ++ underline ++ nl
          ++ flat (map (fun c => summary_text c ++ nl) classes);
        stderr := stderr p;
        executed :=
          (executed p
           ++ [(get_search_query (format_args args),
                map VStr (search_parameters (format_args args)))])%list |}).
Proof.
  intros Hconn Hc.
  unfold main, parse_args, RegDB_init, search, try_except, bind, lift,
    execute_fetchall.
  rewrite Hconn. cbn [ret raise cur]. rewrite Hc.
  unfold display_table, bind, print. rewrite display_rows_summaries.
  cbn [stdout stderr executed close ret].
  now rewrite !append_assoc.
Qed.

Lemma list_mode_output_witness :
  main {| argv0 := "reg.py";
          sqlite3_connect :=
            fun _ => inr (fun _ _ => inr (map summary_row two_classes)) |}
       (Parsed {| d := None; n := Some "333"; a := None; t := None |}) start
  = (Returned tt,
     {| stdout :=
          String.concat nl
            ["ClsId Dept CrsNum Area Title";
             "----- ---- ------ ---- -----";
             " 8321  COS    333   QR Advanced Programming Techniques";
             " 8322  EGR    333      Readings in American Literature: Twentieth-";
             "                       Century Fiction"] ++ nl;
        stderr := "";
        executed :=
          [(search_select ++ "WHERE coursenum LIKE ? escape '@'" ++ order_by,
            [VStr "%333%"])] |}).
Proof.
  exact (list_mode_output
           {| argv0 := "reg.py";
              sqlite3_connect :=
                fun _ => inr (fun _ _ => inr (map summary_row two_classes)) |}
           {| d := None; n := Some "333"; a := None; t := None |}
           (fun _ _ => inr (map summary_row two_classes))
           two_classes start eq_refl eq_refl).
Defined.

(** X6: a row whose class identifier, department, course number or area
    is NULL stops the table: the formatting of that cell raises
    [TypeError]; the header, the underline and the rows before it have
    been printed, the rows after it are not. *)
Theorem table_stops_at_null (classes : list class_summary)
  (c1 c2 c3 c4 c5 : value) (rest : list row) (p : process) :
  In VNone [c1; c2; c3; c4] ->
  display_table (map summary_row classes ++ [c1; c2; c3; c4; c5] :: rest) 72 p
  = (Raised TypeError,
     {| stdout :=
          stdout p ++ header ++ nl ++ underline ++ nl
          ++ flat (map (fun c => summary_text c ++ nl) classes);
        stderr := stderr p;
        executed := executed p |}).
Proof.
  intro H.
  assert (Hrows : forall q,
            display_rows 72
              (map summary_row classes ++ [c1; c2; c3; c4; c5] :: rest) q
            = (Raised TypeError,
               {| stdout :=
                    stdout q
                    ++ flat (map (fun c => summary_text c ++ nl) classes);
                  stderr := stderr q;
                  executed := executed q |})).
  { induction classes as [|c classes IH]; intro q.
    - cbn [map app display_rows flat fold_right]. unfold bind.
      rewrite (display_row_null 72 c1 c2 c3 c4 c5 q H).
      rewrite append_nil_r. now destruct q.
    - cbn [map app display_rows]. unfold bind at 1.
      rewrite display_row_summary. unfold print at 1. rewrite IH.
      cbn [stdout stderr executed flat fold_right].
      now rewrite !append_assoc. }
  unfold display_table. unfold bind at 1. unfold print at 1.
  unfold bind at 1. unfold print at 1.
  rewrite Hrows. cbn [stdout stderr executed].
  now rewrite !append_assoc.
Qed.

Lemma table_stops_at_null_witness :
  display_table
    (map summary_row [] ++ [VInt 8321; VStr "COS"; VStr "333"; VNone;
                            VStr "Advanced Programming Techniques"] :: [])
    72 start
  = (Raised TypeError,
     {| stdout := header ++ nl ++ underline ++ nl;
        stderr := "";
        executed := [] |}).
Proof.
  apply (table_stops_at_null [] (VInt 8321) (VStr "COS") (VStr "333") VNone
           (VStr "Advanced Programming Techniques") [] start).
  cbn. auto.
Defined.

End ListMode.

(** * The detail report: cross-listings and professors as the code has them *)

Section CrossListings.

Lemma prefix_refl_app (x r : string) : prefix x (x ++ r) = true.
Proof.
  induction x as [|c x IH]; cbn; [apply prefix_nil|].
  destruct (ascii_dec c c) as [_|Hn]; [exact IH | now elim Hn].
Qed.

Lemma prefix_app_r (x s r : string) :
  prefix x s = true -> prefix x (s ++ r) = true.
Proof.
  revert s. induction x as [|c x IH]; intros s H; [apply prefix_nil|].
  destruct s as [|c' s]; [discriminate H|]. cbn in *.
  destruct (ascii_dec c c'); [now apply IH | discriminate H].
Qed.

Lemma contains_app_l (x s r : string) :
  contains x s = true -> contains x (s ++ r) = true.
Proof.
  induction s as [|c s IH]; intro H.
  - cbn in H. rewrite orb_false_r in H.
    destruct x; [|discriminate H]. cbn [append].
    destruct r; reflexivity.
  - cbn [contains append] in *. apply orb_true_iff in H as [H|H].
    + apply (prefix_app_r _ _ r) in H. cbn [append] in H. now rewrite H.
    + rewrite (IH H). apply orb_true_r.
Qed.

Lemma contains_app_r (x s r : string) :
  contains x r = true -> contains x (s ++ r) = true.
Proof.
  intro H. induction s as [|c s IH]; [exact H|].
  cbn [append contains]. rewrite IH. apply orb_true_r.
Qed.

Lemma contains_of_prefix (x s : string) :
  prefix x s = true -> contains x s = true.
Proof. destruct s; cbn [contains]; intros ->; reflexivity. Qed.

Lemma contains_dept_line (x acc : string) :
  contains x (acc ++ dept_line x) = true.
Proof.
  apply contains_app_r. unfold dept_line.
  apply (contains_app_r x "Dept and Number: ").
  apply contains_of_prefix, prefix_refl_app.
Qed.

(** The first loop of [display_details] in terms of the pairs listed. *)
Lemma dept_prof_loop_listed (results : list row) :
  Forall (fun r => List.length r = 13) results ->
  forall acc profs,
    dept_prof_loop results acc profs
    = inr (acc ++ flat (map dept_line
                          (listed_pairs acc (map pair_text results))),
           (profs ++ prof_cells results)%list).
Proof.
  induction 1 as [|r results Hr _ IH]; intros acc profs.
  - cbn. now rewrite append_nil_r, app_nil_r.
  - cbn [dept_prof_loop map listed_pairs].
    rewrite !item_cell by (rewrite Hr; lia).
    fold (pair_text r).
    destruct (negb (contains (pair_text r) acc)).
    + fold (dept_line (pair_text r)). rewrite IH.
      cbn [map flat fold_right prof_cells].
      now rewrite append_assoc, <- app_assoc.
    + rewrite IH. cbn [prof_cells map]. now rewrite <- app_assoc.
Qed.

Lemma listed_pairs_subseq (pairs : list string) :
  forall acc, subseq (listed_pairs acc pairs) pairs.
Proof.
  induction pairs as [|x pairs IH]; intro acc; cbn [listed_pairs].
  - constructor.
  - destruct (negb (contains x acc)); constructor; apply IH.
Qed.

(** A pair listed later does not occur in the text built before. *)
Lemma listed_pairs_fresh (pairs : list string) :
  forall acc y z,
    In y (listed_pairs acc pairs) -> contains z acc = true -> y <> z.
Proof.
  induction pairs as [|x pairs IH]; intros acc y z Hy Hz; [contradiction|].
  cbn [listed_pairs] in Hy.
  destruct (contains x acc) eqn:E; cbn [negb] in Hy.
  - now apply (IH acc).
  - destruct Hy as [<-|Hy].
    + intro; subst. congruence.
    + apply (IH (acc ++ dept_line x) y z Hy). now apply contains_app_l.
Qed.

Lemma listed_pairs_NoDup (pairs : list string) :
  forall acc, NoDup (listed_pairs acc pairs).
Proof.
  induction pairs as [|x pairs IH]; intro acc; cbn [listed_pairs].
  - constructor.
  - destruct (negb (contains x acc)); [|apply IH].
    constructor; [|apply IH].
    intro Hin.
    apply (listed_pairs_fresh pairs (acc ++ dept_line x) x x Hin);
      [apply contains_dept_line | reflexivity].
Qed.

(** Every pair occurs in the text once the loop has passed it. *)
Lemma listed_pairs_cover (pairs : list string) :
  forall acc x,
    In x pairs ->
    contains x (acc ++ flat (map dept_line (listed_pairs acc pairs))) = true.
Proof.
  induction pairs as [|y pairs IH]; intros acc x Hx; [contradiction|].
  cbn [listed_pairs].
  destruct (contains y acc) eqn:E; cbn [negb].
  - destruct Hx as [<-|Hx]; [now apply contains_app_l | now apply IH].
  - cbn [map flat fold_right].
    fold (flat (map dept_line (listed_pairs (acc ++ dept_line y) pairs))).
    rewrite <- append_assoc.
    destruct Hx as [<-|Hx]; [|now apply IH].
    apply contains_app_l, contains_dept_line.
Qed.

Lemma pair_text_nonempty (r : row) : contains (pair_text r) "" = false.
Proof.
  unfold pair_text. destruct (str (cell r 6)); reflexivity.
Qed.

(** X7: on rows of thirteen columns the lines of the cross-listings are
    the lines of some of the pairs of the rows, in the order of the
    rows and none twice; the pair of the first row is always listed;
    and the text of every pair of the rows occurs in the lines (which
    is why a pair whose text occurs inside an earlier line gets no
    line of its own). *)
Theorem dept_lines_of_rows (results : list row) :
  Forall (fun r => List.length r = 13) results ->
  exists listed,
    dept_lines results = flat (map dept_line listed)
    /\ subseq listed (map pair_text results)
    /\ NoDup listed
    /\ hd_error listed = hd_error (map pair_text results)
    /\ forall r, In r results ->
                 contains (pair_text r) (dept_lines results) = true.
Proof.
  intro H. exists (listed_pairs "" (map pair_text results)).
  assert (Hd : dept_lines results
               = flat (map dept_line
                         (listed_pairs "" (map pair_text results)))).
  { unfold dept_lines. now rewrite (dept_prof_loop_listed results H "" []). }
  split; [exact Hd|]. split; [apply listed_pairs_subseq|].
  split; [apply listed_pairs_NoDup|]. split.
  - destruct results as [|r results]; [reflexivity|].
    cbn [map listed_pairs]. now rewrite pair_text_nonempty.
  - intros r Hr. rewrite Hd.
    apply (listed_pairs_cover (map pair_text results) "" (pair_text r)).
    now apply in_map.
Qed.

Lemma dept_lines_of_rows_witness :
  exists listed,
    dept_lines cross_listed = flat (map dept_line listed)
    /\ subseq listed (map pair_text cross_listed)
    /\ NoDup listed
    /\ hd_error listed = hd_error (map pair_text cross_listed)
    /\ forall r, In r cross_listed ->
                 contains (pair_text r) (dept_lines cross_listed) = true.
Proof.
  apply (dept_lines_of_rows cross_listed). repeat constructor.
Defined.

(** ** Professors that cannot be sorted *)

Lemma insert_sorted_length (x : value) (l s : list value) :
  insert_sorted x l = inr s -> List.length s = S (List.length l).
Proof.
  revert s. induction l as [|y l IH]; intros s H.
  - inversion H. reflexivity.
  - cbn [insert_sorted] in H.
    destruct (value_lt x y) as [e|[|]]; try discriminate H.
    + inversion H. reflexivity.
    + destruct (insert_sorted x l) as [e|r]; [discriminate H|].
      inversion H. cbn [List.length]. now rewrite (IH r eq_refl).
Qed.

Lemma sort_length (l s : list value) :
  sort l = inr s -> List.length s = List.length l.
Proof.
  revert s. induction l as [|x l IH]; intros s H.
  - inversion H. reflexivity.
  - cbn [sort] in H. destruct (sort l) as [e|s']; [discriminate H|].
    apply insert_sorted_length in H. cbn [List.length].
    now rewrite H, (IH s' eq_refl).
Qed.

Lemma insert_sorted_error (x : value) (l : list value) (e : exn) :
  insert_sorted x l = inl e -> e = TypeError.
Proof.
  induction l as [|y l IH]; intro H; [discriminate H|].
  cbn [insert_sorted] in H.
  destruct (value_lt x y) as [e'|[|]] eqn:E.
  - destruct x, y; cbn in E; congruence.
  - discriminate H.
  - destruct (insert_sorted x l) as [e'|r]; [|discriminate H].
    inversion H; subst. now apply IH.
Qed.

Lemma sort_error (l : list value) (e : exn) :
  sort l = inl e -> e = TypeError.
Proof.
  induction l as [|x l IH]; intro H; [discriminate H|].
  cbn [sort] in H. destruct (sort l) as [e'|s].
  - inversion H; subst. now apply IH.
  - now apply insert_sorted_error in H.
Qed.

(** A list that holds [None] can be sorted only when it holds nothing
    else. *)
Lemma sort_with_none (l s : list value) :
  sort l = inr s -> In VNone l -> l = [VNone].
Proof.
  revert s. induction l as [|x l IH]; intros s H Hin; [contradiction|].
  cbn [sort] in H. destruct (sort l) as [e|s'] eqn:Hs; [discriminate H|].
  destruct (value_eq_dec x VNone) as [->|Hx].
  - destruct s' as [|y s'].
    + apply sort_length in Hs. destruct l; [reflexivity | discriminate Hs].
    + discriminate H.
  - destruct Hin as [->|Hin]; [now elim Hx|].
    rewrite (IH s' eq_refl Hin) in Hs. cbn in Hs. inversion Hs; subst s'.
    cbn in H. destruct x; discriminate H || now elim Hx.
Qed.

(** X8: when the professor cells of a result set hold both the absent
    marker and a name, sorting them raises [TypeError]: the report
    prints nothing and writes nothing to the error stream. *)
Theorem mixed_professors_raise (results : list row) (name : string)
  (p : process) :
  Forall (fun r => List.length r = 13) results ->
  In VNone (prof_cells results) ->
  In (VStr name) (prof_cells results) ->
  display_details results p = (Raised TypeError, p).
Proof.
  intros Hall Hnone Hname.
  assert (Hsort : sort (list_set (prof_cells results)) = inl TypeError).
  { destruct (sort (list_set (prof_cells results))) as [e|s] eqn:Hs.
    - now rewrite (sort_error _ _ Hs).
    - exfalso.
      assert (Hl : list_set (prof_cells results) = [VNone]).
      { apply (sort_with_none _ s Hs). now apply nodup_In. }
      assert (Hin : In (VStr name) (list_set (prof_cells results))).
      { now apply nodup_In. }
      rewrite Hl in Hin. destruct Hin as [Hin|[]]. discriminate Hin. }
  destruct results as [|res rest]; [contradiction|].
  pose proof (dept_prof_loop_lines _ Hall) as Hloop.
  inversion Hall as [|? ? Hres _]; subst.
  unfold display_details.
  unfold bind at 1. cbn [lift item nth_error ret].
  unfold bind at 1. rewrite Hres. cbn [Nat.eqb negb ret].
  unfold bind at 1. rewrite Hloop. cbn [lift ret fst snd].
  unfold bind at 1. rewrite Hsort. reflexivity.
Qed.

Lemma mixed_professors_raise_witness :
  display_details
    [sample_row "COS" "333" (VStr "Brian Kernighan");
     sample_row "COS" "333" VNone] start
  = (Raised TypeError, start).
Proof.
  apply (mixed_professors_raise _ "Brian Kernighan" start).
  - repeat constructor.
  - cbn. auto.
  - cbn. auto.
Defined.

End CrossListings.

(** * The statement, its placeholders and what a provided filter matches *)

Section Statement.

(** X9: the list query has exactly one placeholder per bound parameter,
    and its text is the same whatever the provided filters contain: the
    text of the filters reaches the data store through the parameters
    only.  The detail query has the one placeholder for the class
    identifier. *)
Theorem placeholders_match_parameters (args : Namespace) :
  count_char "?" (get_search_query args)
  = List.length (search_parameters args)
  /\ get_search_query (format_args args) = get_search_query (mask_args args)
  /\ count_char "?" get_details_query = 1.
Proof.
  destruct args as [[[|? ?]|] [[|? ?]|] [[|? ?]|] [[|? ?]|]];
    repeat split; vm_compute; reflexivity.
Qed.









(** The filter ECOLE with a capital E with acute (code point 201) is
    bound with the small letter (233); the data store does not identify
    the two, so the field that holds the capital letter is not found,
    while the filter COS finds the field cos. *)
Example accented_capital :
  let filter := string_of_codes [201; 67; 79; 76; 69] in
  let small := string_of_codes [233; 99; 111; 108; 101] in
  format_value (Some filter) = Some ("%" ++ small ++ "%")
  /\ sqlite.field_like ("%" ++ small ++ "%") filter = false
  /\ sqlite.field_like ("%" ++ small ++ "%") small = true
  /\ format_value (Some "COS") = Some "%cos%"
  /\ sqlite.field_like "%cos%" "COS" = true.
Proof. repeat split. Qed.

End Statement.

(** * The rows of the table: columns and short rows *)

Section Rows.

Import textwrap.

(** X11: in a row each of the four cells stands behind as many spaces
    as it is shorter than its column (of width 5, 4, 6 and 4) and is
    kept whole when it is longer; a space follows each cell.  The title
    therefore starts at the column that is the sum of the widths (or of
    the cell lengths where they are larger) and of the four spaces,
    and that column is the indent of the continuation lines.  When the
    four cells fit, it is column 23, where the header has its word
    Title. *)
Theorem title_column (c : class_summary) (p : process) :
  let id := str_of_Z (cs_classid c) in
  let cells :=
    (spaces (5 - String.length id) ++ id) ++ " "
    ++ (spaces (4 - String.length (cs_dept c)) ++ cs_dept c) ++ " "
    ++ (spaces (6 - String.length (cs_coursenum c)) ++ cs_coursenum c) ++ " "
    ++ (spaces (4 - String.length (cs_area c)) ++ cs_area c) ++ " " in
  let column :=
    Nat.max 5 (String.length id)
    + Nat.max 4 (String.length (cs_dept c))
    + Nat.max 6 (String.length (cs_coursenum c))
    + Nat.max 4 (String.length (cs_area c)) + 4 in
  display_row 72 (summary_row c) p
  = print (fill (cells ++ cs_title c) 72 (spaces column) false) p
  /\ String.length cells = column
  /\ String.index 0 "Title" header = Some 23.
Proof.
  intros id cells column.
  assert (Hlen : String.length cells = column).
  { subst cells column. rewrite !length_append, !length_spaces.
    cbn [String.length]. lia. }
  split; [|split; [exact Hlen | reflexivity]].
  rewrite display_row_summary. unfold summary_text, summary_line.
  change (before_title (cs_classid c) (cs_dept c) (cs_coursenum c)
            (cs_area c)) with cells.
  replace (String.length (cells ++ cs_title c) - String.length (cs_title c))
    with column; [reflexivity|].
  rewrite length_append, Hlen. lia.
Qed.

(** ** A row that fits on one line *)

Lemma plain_char_facts (c : ascii) :
  negb (is_space c) || Ascii.eqb c " " = true ->
  (code c =? 9)%nat = false
  /\ (if is_whitespace c then " "%char else c) = c.
Proof.
  destruct c as [[] [] [] [] [] [] [] []]; intro H;
    try discriminate H; split; reflexivity.
Qed.

Lemma expand_translate_plain (text : string) :
  plain text = true ->
  forall col, translate_whitespace (expandtabs_from 8 col text) = text.
Proof.
  unfold plain. induction text as [|c text IH]; intros H col; [reflexivity|].
  cbn [all_chars] in H. apply andb_true_iff in H as [Hc Ht].
  destruct (plain_char_facts c Hc) as [Htab Hws].
  cbn [expandtabs_from]. rewrite Htab.
  destruct ((code c =? 10)%nat || (code c =? 13)%nat);
    cbn [translate_whitespace]; rewrite Hws; now rewrite IH.
Qed.

Lemma munge_plain (text : string) :
  plain text = true -> _munge_whitespace text = text.
Proof. intro H. now apply expand_translate_plain. Qed.

Lemma join_flat (chunks : list string) : join chunks = flat chunks.
Proof.
  unfold join. induction chunks as [|c chunks IH]; [reflexivity|].
  destruct chunks as [|c' chunks].
  - cbn. now rewrite append_nil_r.
  - change (String.concat "" (c :: c' :: chunks))
      with (c ++ "" ++ String.concat "" (c' :: chunks)).
    cbn [append]. now rewrite IH.
Qed.

Lemma fit_all (w : nat) (chunks : list string) :
  forall cur_len,
    cur_len + total_length chunks <= w ->
    fit w cur_len chunks = (chunks, []).
Proof.
  induction chunks as [|c chunks IH]; intros cur_len H; [reflexivity|].
  cbn [fit]. cbn [total_length fold_right] in H.
  fold (total_length chunks) in H.
  destruct (cur_len + String.length c <=? w)%nat eqn:E.
  - rewrite IH by lia. reflexivity.
  - apply Nat.leb_gt in E. lia.
Qed.

Lemma ends_with_app (q : ascii -> bool) (s c : string) :
  c <> "" -> ends_with q (s ++ c) = ends_with q c.
Proof.
  intro Hc. induction s as [|x s IH]; [reflexivity|].
  cbn [append]. destruct (s ++ c) eqn:E.
  - destruct s; [now elim Hc | discriminate E].
  - cbn [ends_with]. exact IH.
Qed.

Lemma flat_app (l1 l2 : list string) :
  flat (l1 ++ l2) = flat l1 ++ flat l2.
Proof.
  induction l1 as [|c l1 IH]; [reflexivity|].
  cbn [app flat fold_right]. fold (flat (l1 ++ l2)) (flat l1).
  now rewrite IH, append_assoc.
Qed.

Lemma wrap_loop_done (self : TextWrapper) (fuel : nat)
  (lines : list string) :
  wrap_loop self fuel lines [] = lines.
Proof. destruct fuel; reflexivity. Qed.

(** Chunks that fit on the first line, the last of which is not
    whitespace, make one line. *)
Lemma wrap_chunks_fit (self : TextWrapper) (chunks : list string) :
  chunks <> [] ->
  total_length chunks <= width self - String.length (initial_indent self) ->
  (forall before c, chunks = (before ++ [c])%list -> blank c = false) ->
  _wrap_chunks self chunks = [initial_indent self ++ join chunks].
Proof.
  intros Hne Hlen Hlast.
  destruct chunks as [|c0 r]; [contradiction|].
  unfold _wrap_chunks, wrap_fuel. cbn [wrap_loop].
  unfold next_line. rewrite andb_false_r.
  rewrite (fit_all _ (c0 :: r) 0) by (cbn [Nat.add]; exact Hlen).
  destruct (rev (c0 :: r)) as [|c before] eqn:R.
  - apply (f_equal (@rev _)) in R. rewrite rev_involutive in R.
    discriminate R.
  - assert (E : c0 :: r = (rev before ++ [c])%list).
    { rewrite <- (rev_involutive (c0 :: r)), R. reflexivity. }
    rewrite (Hlast _ _ E). rewrite wrap_loop_done. reflexivity.
Qed.

(** A text that fits in the width, holds no whitespace but spaces and
    does not end in one is left as it is. *)
Lemma fill_short (text indent : string) (w : nat) (blw : bool) :
  plain text = true ->
  text <> "" ->
  String.length text <= w ->
  ends_with is_space text = false ->
  fill text w indent blw = text.
Proof.
  intros Hplain Hne Hlen Hend.
  unfold fill, wrap. rewrite (munge_plain text Hplain).
  destruct (split_spec text) as [Hflat _].
  pose proof (split_nonempty text) as Hall.
  rewrite wrap_chunks_fit.
  - cbn [initial_indent String.concat append]. now rewrite join_flat.
  - intro E. rewrite E in Hflat. cbn in Hflat. now elim Hne.
  - cbn [width initial_indent String.length].
    rewrite <- length_join, join_flat, Hflat. lia.
  - intros before c E. destruct (blank c) eqn:B; [|reflexivity]. exfalso.
    assert (Hc : c <> "").
    { rewrite E in Hall. apply Forall_app in Hall as [_ Hall].
      now inversion Hall. }
    rewrite E, flat_app in Hflat. cbn [flat fold_right] in Hflat.
    rewrite append_nil_r in Hflat.
    rewrite <- Hflat, (ends_with_app _ _ _ Hc) in Hend.
    rewrite (ends_with_all is_space c Hc B) in Hend. discriminate Hend.
Qed.

(** X12: a row whose text is at most 72 characters long, holds no
    whitespace but spaces and does not end in a space is printed as it
    is, on one line. *)
Theorem short_row_unchanged (c : class_summary) (p : process) :
  plain (summary_line c) = true ->
  String.length (summary_line c) <= 72 ->
  ends_with is_space (summary_line c) = false ->
  display_row 72 (summary_row c) p = print (summary_line c) p.
Proof.
  intros Hplain Hlen Hend.
  rewrite display_row_summary. unfold summary_text.
  rewrite fill_short; auto.
  unfold summary_line, before_title. intro E.
  apply (f_equal String.length) in E.
  rewrite !length_append in E. cbn [String.length] in E. lia.
Qed.

Lemma short_row_unchanged_witness :
  display_row 72
    (summary_row
       {| cs_classid := 8321; cs_dept := "COS"; cs_coursenum := "333";
          cs_area := "QR"; cs_title := "Advanced Programming Techniques" |})
    start
  = print " 8321  COS    333   QR Advanced Programming Techniques" start.
Proof.
  apply (short_row_unchanged
           {| cs_classid := 8321; cs_dept := "COS"; cs_coursenum := "333";
              cs_area := "QR";
              cs_title := "Advanced Programming Techniques" |} start).
  - reflexivity.
  - vm_compute. lia.
  - reflexivity.
Defined.

End Rows.
